(** * fizzy-mcp: the request/response translation layer of [src/index.ts]

    A shallow embedding of the Fizzy MCP gateway: the argument validator
    [validateToolArgs], the HTTP client [FizzyClient] (constructor,
    [validateId], [request] and the thirteen remote calls), the tool table
    [TOOLS] and the [CallToolRequestSchema] handler.

    JavaScript values are an inductive type, strings are [string], thrown
    [Error]s are their message.  The network, [JSON.parse] and
    [JSON.stringify] are library code: they are the fields of the class
    [Runtime].  [fetch] and [response.text()] leave an [Event] in a trace, so
    that "issues one request" and "does not read the body" are statements
    about that trace. *)

From Stdlib Require Import String Ascii List Bool Arith Lia.
From Stdlib Require Import ZArith DecimalString.
Import ListNotations.
Local Open Scope list_scope.
Local Open Scope string_scope.

Set Implicit Arguments.

(** ** JavaScript values *)

Module JS.

(** A JSON-decoded value, or [undefined].  A number is kept as an integer:
    the gateway only looks at the [typeof] and the truthiness of one. *)
#[warnings="-register-all"]
Inductive Value : Type :=
| Undefined
| Null
| Bool (b : bool)
| Number (n : Z)
| Str (s : string)
| Array (xs : list Value)
| Object (props : list (string * Value)).

Definition typeof (v : Value) : string :=
  match v with
  | Undefined => "undefined"
  | Null => "object"
  | Bool _ => "boolean"
  | Number _ => "number"
  | Str _ => "string"
  | Array _ => "object"
  | Object _ => "object"
  end.

(** ToBoolean *)
Definition truthy (v : Value) : bool :=
  match v with
  | Undefined | Null => false
  | Bool b => b
  | Number n => negb (n =? 0)%Z
  | Str s => negb (s =? EmptyString)
  | Array _ | Object _ => true
  end.

Definition is_nullish (v : Value) : bool :=
  match v with
  | Undefined | Null => true
  | _ => false
  end.

(** Own-property lookup in a property list, [undefined] when absent. *)
Fixpoint lookup (k : string) (props : list (string * Value)) : Value :=
  match props with
  | [] => Undefined
  | (k', v) :: rest => if k' =? k then v else lookup k rest
  end.

(** [obj[k] = v]: overwrite in place, or append a new property. *)
Fixpoint assign (k : string) (v : Value) (props : list (string * Value))
  : list (string * Value) :=
  match props with
  | [] => [(k, v)]
  | (k', v') :: rest =>
      if k' =? k then (k, v) :: rest else (k', v') :: assign k v rest
  end.

Definition is_digit (c : ascii) : bool :=
  let n := nat_of_ascii c in ((48 <=? n) && (n <=? 57))%nat.

Definition digit_val (c : ascii) : nat := nat_of_ascii c - 48.

Fixpoint digits_val (acc : nat) (s : string) : option nat :=
  match s with
  | EmptyString => Some acc
  | String c r =>
      if is_digit c then digits_val (10 * acc + digit_val c) r else None
  end.

(** A canonical array index: ["0"], or digits without a leading zero. *)
Definition array_index (k : string) : option nat :=
  match k with
  | EmptyString => None
  | String c r =>
      if (c =? "0")%char
      then (if r =? EmptyString then Some 0 else None)
      else digits_val 0 k
  end.

(** [v[k]] for a value that is not [undefined] or [null], read as an
    own-property lookup: properties inherited from a prototype
    ([constructor], [toString], the array methods) are not modelled.  The
    names the gateway reads ([board_id], [card_id], [name], ...) are not
    inherited ones, and the statements about field names are made for the
    schemas of the tools. *)
Definition get (v : Value) (k : string) : Value :=
  match v with
  | Object props => lookup k props
  | Array xs =>
      if k =? "length" then Number (Z.of_nat (List.length xs))
      else match array_index k with
           | Some i => nth i xs Undefined
           | None => Undefined
           end
  | Str s =>
      if k =? "length" then Number (Z.of_nat (String.length s))
      else match array_index k with
           | Some i =>
               match String.get i s with
               | Some c => Str (String c EmptyString)
               | None => Undefined
               end
           | None => Undefined
           end
  | _ => Undefined
  end.

(** [a === b] against a string *)
Definition strict_eq_string (v : Value) (s : string) : bool :=
  match v with
  | Str s' => s' =? s
  | _ => false
  end.

End JS.

(** ** Strings: the methods and regular expressions the gateway uses *)

(** [s.endsWith("?")] *)
Fixpoint endsWith_qmark (s : string) : bool :=
  match s with
  | EmptyString => false
  | String c EmptyString => (c =? "?")%char
  | String _ r => endsWith_qmark r
  end.

(** [s.slice(0, -1)] *)
Fixpoint slice_0_m1 (s : string) : string :=
  match s with
  | EmptyString => EmptyString
  | String _ EmptyString => EmptyString
  | String c r => String c (slice_0_m1 r)
  end.

(** [s.replace] of [/\/$/] by the empty string: the one slash that ends the input is removed. *)
Fixpoint replace_trailing_slash (s : string) : string :=
  match s with
  | EmptyString => EmptyString
  | String c EmptyString => if (c =? "/")%char then EmptyString else s
  | String c r => String c (replace_trailing_slash r)
  end.

Definition is_alnum (c : ascii) : bool :=
  let n := nat_of_ascii c in
  (((97 <=? n) && (n <=? 122)) || ((65 <=? n) && (n <=? 90))
   || ((48 <=? n) && (n <=? 57)))%nat.

Fixpoint all_chars (p : ascii -> bool) (s : string) : bool :=
  match s with
  | EmptyString => true
  | String c r => p c && all_chars p r
  end.

(** [/^[a-zA-Z0-9]+$/.test(s)] *)
Definition idPattern_test (s : string) : bool :=
  negb (s =? EmptyString) && all_chars is_alnum s.

(** The longest run of [\d] at the head of [s]. *)
Fixpoint take_digits (s : string) : string :=
  match s with
  | EmptyString => EmptyString
  | String c r => if JS.is_digit c then String c (take_digits r) else EmptyString
  end.

(** [s] without the prefix [p], when it starts with it. *)
Fixpoint strip_prefix (p s : string) : option string :=
  match p, s with
  | EmptyString, _ => Some s
  | String a p', String b s' => if (a =? b)%char then strip_prefix p' s' else None
  | String _ _, EmptyString => None
  end.

(** The regular expression [/\/cards\/(\d+)/] tried at the head of [s]:
    the captured group. *)
Definition cards_at_head (s : string) : option string :=
  match strip_prefix "/cards/" s with
  | Some rest =>
      match take_digits rest with
      | EmptyString => None
      | d => Some d
      end
  | None => None
  end.

(** [s.match(/\/cards\/(\d+)/)]: the group [match[1]] of the leftmost match,
    [None] for a [null] match. *)
Fixpoint match_cards (s : string) : option string :=
  match cards_at_head s with
  | Some d => Some d
  | None =>
      match s with
      | EmptyString => None
      | String _ r => match_cards r
      end
  end.

(** [String(n)] of a non-negative integer *)
Definition string_of_nat (n : nat) : string :=
  NilZero.string_of_uint (Nat.to_uint n).

(** ** Thrown errors *)

(** The outcome of a computation that may [throw new Error(message)]. *)
Inductive Outcome (A : Type) : Type :=
| Return (a : A)
| Throw (message : string).
Arguments Return {A} a.
Arguments Throw {A} message.

(** ** validateToolArgs *)

Definition Schema : Type := list (string * string).

Record Collected : Type := mkCollected {
  validated : list (string * JS.Value);
  missing : list string;
  wrongType : list string
}.

Definition wrongType_entry (field baseType : string) (value : JS.Value) : string :=
  field ++ " (expected " ++ baseType ++ ", got " ++ JS.typeof value ++ ")".

(** One turn of the loop over [Object.entries(schema)]. *)
Definition validate_entry (args : JS.Value) (acc : Collected)
    (entry : string * string) : Collected :=
  let '(field, expectedType) := entry in
  let isOptional := endsWith_qmark expectedType in
  let baseType := if isOptional then slice_0_m1 expectedType else expectedType in
  let value := JS.get args field in
  if JS.is_nullish value then
    if negb isOptional
    then mkCollected (validated acc) (missing acc ++ [field])%list (wrongType acc)
    else acc
  else if negb (JS.typeof value =? baseType) then
    mkCollected (validated acc) (missing acc)
      (wrongType acc ++ [wrongType_entry field baseType value])%list
  else
    mkCollected (JS.assign field value (validated acc)) (missing acc) (wrongType acc).

Definition validation_message (toolName : string) (c : Collected) : string :=
  let message := "Tool '" ++ toolName ++ "' validation failed:" in
  let message :=
    if (0 <? List.length (missing c))%nat
    then message ++ " Missing: " ++ String.concat ", " (missing c) ++ "."
    else message in
  let message :=
    if (0 <? List.length (wrongType c))%nat
    then message ++ " Wrong type: " ++ String.concat ", " (wrongType c) ++ "."
    else message in
  message.

Definition validateToolArgs (args : JS.Value) (schema : Schema)
    (toolName : string) : Outcome JS.Value :=
  if negb (JS.truthy args) || negb (JS.typeof args =? "object") then
    Throw ("Tool '" ++ toolName ++ "' requires arguments object")
  else
    let c := fold_left (validate_entry args) schema (mkCollected [] [] []) in
    if ((0 <? List.length (missing c)) || (0 <? List.length (wrongType c)))%nat then
      Throw (validation_message toolName c)
    else
      Return (JS.Object (validated c)).

(** ** The runtime: network and JSON *)

(** The second argument of [fetch]. *)
Record RequestInit : Type := mkInit {
  method : option string;
  headers : list (string * string);
  body : option string
}.

(** A received [Response]: status line, header list and body text. *)
Record Response : Type := mkResponse {
  status : nat;
  response_headers : list (string * string);
  response_body : string
}.

(** [response.ok] *)
Definition ok (r : Response) : bool :=
  ((200 <=? status r) && (status r <=? 299))%nat.

Definition lower_ascii (c : ascii) : ascii :=
  let n := nat_of_ascii c in
  if ((65 <=? n) && (n <=? 90))%nat then ascii_of_nat (n + 32) else c.

Fixpoint lowercase (s : string) : string :=
  match s with
  | EmptyString => EmptyString
  | String c r => String (lower_ascii c) (lowercase r)
  end.

(** [headers.get(name)]: names compare without case, the values of a
    repeated header are joined, [None] is [null]. *)
Definition Headers_get (name : string) (hs : list (string * string))
  : option string :=
  match filter (fun h => lowercase (fst h) =? lowercase name) hs with
  | [] => None
  | found => Some (String.concat ", " (map snd found))
  end.

(** What the embedding takes from the platform: the remote service behind
    [fetch] (a state machine; a rejected [fetch] is a [Throw]) and the JSON
    codec. *)
Class Runtime : Type := {
  Net : Type;
  fetch : Net -> string -> RequestInit -> Net * Outcome Response;
  JSON_parse : string -> option JS.Value;
  JSON_stringify : JS.Value -> string;
  JSON_stringify_indent : JS.Value -> nat -> string
}.

(** What a call does to the outside. *)
Inductive Event : Type :=
| Fetched (url : string) (init : RequestInit)
| TextRead.

Definition is_fetch (e : Event) : bool :=
  match e with
  | Fetched _ _ => true
  | TextRead => false
  end.

(** The requests of a trace, oldest first. *)
Definition requests (t : list Event) : list (string * RequestInit) :=
  flat_map (fun e => match e with
                     | Fetched url init => [(url, init)]
                     | TextRead => []
                     end) t.

Definition body_reads (t : list Event) : nat :=
  List.length (filter (fun e => negb (is_fetch e)) t).

Section Gateway.

Context {R : Runtime}.

Record World : Type := mkWorld {
  net : Net;
  trace : list Event
}.

(** An [async] body: it runs against the world and returns or throws. *)
Definition M (A : Type) : Type := World -> Outcome A * World.

Definition ret {A} (a : A) : M A := fun w => (Return a, w).

Definition throw {A} (message : string) : M A := fun w => (Throw message, w).

Definition bind {A B} (m : M A) (k : A -> M B) : M B :=
  fun w =>
    match m w with
    | (Return a, w') => k a w'
    | (Throw message, w') => (Throw message, w')
    end.

Definition lift {A} (o : Outcome A) : M A := fun w => (o, w).

Notation "x <- m ;; k" := (bind m (fun x => k))
  (at level 61, m at next level, right associativity).
Notation "m ;;; k" := (bind m (fun _ => k))
  (at level 61, right associativity).

(** [await fetch(url, init)] *)
Definition await_fetch (url : string) (init : RequestInit) : M Response :=
  fun w =>
    let (n, r) := fetch (net w) url init in
    (r, mkWorld n (trace w ++ [Fetched url init])%list).

(** [await response.text()] *)
Definition await_text (r : Response) : M string :=
  fun w => (Return (response_body r), mkWorld (net w) (trace w ++ [TextRead])%list).

(** *** FizzyClient *)

Record FizzyClient : Type := mkClient {
  baseUrl : string;
  token : string;
  accountId : string
}.

(** [new FizzyClient(baseUrl, token, accountId)] *)
Definition new_FizzyClient (baseUrl token accountId : string) : FizzyClient :=
  mkClient (replace_trailing_slash baseUrl) token accountId.

Definition dquote : string := String "034"%char EmptyString.

Definition validateId (id paramName : string) : Outcome unit :=
  if negb (JS.truthy (JS.Str id)) || negb (JS.typeof (JS.Str id) =? "string") then
    Throw ("Invalid " ++ paramName ++ ": must be a non-empty string")
  else if negb (idPattern_test id) then
    Throw ("Invalid " ++ paramName ++ ": " ++ dquote ++ id ++ dquote
           ++ " contains invalid characters. Only alphanumeric characters are allowed.")
  else Return tt.

(** The [options] of [request]: no caller passes headers, so
    [{ ...headers, ...options.headers }] is [headers]. *)
Record Options : Type := mkOptions {
  opt_method : option string;
  opt_body : option string
}.

Definition no_options : Options := mkOptions None None.

Definition request_headers (self : FizzyClient) : list (string * string) :=
  let authorization :=
    if JS.truthy (JS.Str (token self))
    then [("Authorization", "Bearer " ++ token self)]
    else [] in
  List.app [("Accept", "application/json"); ("Content-Type", "application/json")]
           authorization.

Definition request_url (self : FizzyClient) (path : string) : string :=
  baseUrl self ++ "/" ++ accountId self ++ path.

(** [{ ...options, headers }], the second argument of [fetch]. *)
Definition request_init (self : FizzyClient) (options : Options) : RequestInit :=
  mkInit (opt_method options) (request_headers self) (opt_body options).

Definition request (self : FizzyClient) (path : string) (options : Options)
  : M JS.Value :=
  let url := request_url self path in
  response <- await_fetch url (request_init self options) ;;
  if negb (ok response) then
    text <- await_text response ;;
    throw ("Fizzy API error (" ++ string_of_nat (status response) ++ "): " ++ text)
  else if (status response =? 201)%nat then
    match Headers_get "Location" (response_headers response) with
    | Some location =>
        if JS.truthy (JS.Str location) then
          let cardNumber :=
            match match_cards location with
            | Some d => JS.Str d
            | None => JS.Null
            end in
          ret (JS.Object [("success", JS.Bool true);
                          ("message", JS.Str "Card created");
                          ("card_number", cardNumber);
                          ("location", JS.Str location)])
        else ret (JS.Object [("success", JS.Bool true)])
    | None => ret (JS.Object [("success", JS.Bool true)])
    end
  else
    text <- await_text response ;;
    if negb (JS.truthy (JS.Str text)) then ret (JS.Object [])
    else match JSON_parse text with
         | Some v => ret v
         | None => ret (JS.Object [("html", JS.Str text)])
         end.

(** An optional argument as a JavaScript value: absent is [undefined]. *)
Definition optional (o : option string) : JS.Value :=
  match o with
  | Some s => JS.Str s
  | None => JS.Undefined
  end.

(** **** Boards *)

Definition listBoards (self : FizzyClient) : M JS.Value :=
  request self "/boards" no_options.

Definition getBoard (self : FizzyClient) (boardId : string) : M JS.Value :=
  lift (validateId boardId "boardId") ;;;
  request self ("/boards/" ++ boardId) no_options.

Definition createBoard (self : FizzyClient) (name : string)
    (description : option string) : M JS.Value :=
  request self "/boards"
    (mkOptions (Some "POST")
       (Some (JSON_stringify
                (JS.Object [("board",
                   JS.Object [("name", JS.Str name);
                              ("description", optional description)])])))).

(** **** Cards *)

(** The predicate of [cards.filter]:
    [c.board?.id === boardId || c.board_id === boardId]. *)
Definition on_board (boardId : string) (c : JS.Value) : Outcome bool :=
  match c with
  | JS.Undefined => Throw "Cannot read properties of undefined (reading 'board')"
  | JS.Null => Throw "Cannot read properties of null (reading 'board')"
  | _ =>
      let board := JS.get c "board" in
      let nested := if JS.is_nullish board then JS.Undefined else JS.get board "id" in
      Return (JS.strict_eq_string nested boardId
              || JS.strict_eq_string (JS.get c "board_id") boardId)
  end.

Fixpoint filter_cards (boardId : string) (cards : list JS.Value)
  : Outcome (list JS.Value) :=
  match cards with
  | [] => Return []
  | c :: rest =>
      match on_board boardId c with
      | Throw message => Throw message
      | Return keep =>
          match filter_cards boardId rest with
          | Throw message => Throw message
          | Return kept => Return (if keep then c :: kept else kept)
          end
      end
  end.

Definition listCards (self : FizzyClient) (boardId : option string) : M JS.Value :=
  cards <- request self "/cards" no_options ;;
  if JS.truthy (optional boardId) then
    match cards, boardId with
    | JS.Array xs, Some b =>
        match filter_cards b xs with
        | Return kept => ret (JS.Array kept)
        | Throw message => throw message
        end
    | JS.Null, _ => throw "Cannot read properties of null (reading 'filter')"
    | _, _ => throw "cards.filter is not a function"
    end
  else ret cards.

Definition getCard (self : FizzyClient) (cardId : string) : M JS.Value :=
  lift (validateId cardId "cardId") ;;;
  request self ("/cards/" ++ cardId) no_options.

Definition createCard (self : FizzyClient) (boardId title : string)
    (description : option string) : M JS.Value :=
  lift (validateId boardId "boardId") ;;;
  request self ("/boards/" ++ boardId ++ "/cards")
    (mkOptions (Some "POST")
       (Some (JSON_stringify
                (JS.Object [("card",
                   JS.Object [("title", JS.Str title);
                              ("description", optional description)])])))).

Definition updateCard (self : FizzyClient) (cardId : string)
    (updates : JS.Value) : M JS.Value :=
  lift (validateId cardId "cardId") ;;;
  request self ("/cards/" ++ cardId)
    (mkOptions (Some "PATCH")
       (Some (JSON_stringify (JS.Object [("card", updates)])))).

Definition moveCardToColumn (self : FizzyClient) (cardId columnId : string)
  : M unit :=
  lift (validateId cardId "cardId") ;;;
  lift (validateId columnId "columnId") ;;;
  request self ("/cards/" ++ cardId ++ "/column")
    (mkOptions (Some "PATCH")
       (Some (JSON_stringify (JS.Object [("column_id", JS.Str columnId)])))) ;;;
  ret tt.

Definition moveCardToDone (self : FizzyClient) (cardId : string) : M unit :=
  lift (validateId cardId "cardId") ;;;
  request self ("/cards/" ++ cardId ++ "/closure") (mkOptions (Some "POST") None) ;;;
  ret tt.

Definition moveCardToNotNow (self : FizzyClient) (cardId : string) : M unit :=
  lift (validateId cardId "cardId") ;;;
  request self ("/cards/" ++ cardId ++ "/not_now") (mkOptions (Some "POST") None) ;;;
  ret tt.

(** **** Columns *)

Definition listColumns (self : FizzyClient) (boardId : string) : M JS.Value :=
  lift (validateId boardId "boardId") ;;;
  request self ("/boards/" ++ boardId ++ "/columns") no_options.

(** **** Comments *)

Definition listComments (self : FizzyClient) (cardId : string) : M JS.Value :=
  lift (validateId cardId "cardId") ;;;
  request self ("/cards/" ++ cardId ++ "/comments") no_options.

Definition addComment (self : FizzyClient) (cardId body : string) : M JS.Value :=
  lift (validateId cardId "cardId") ;;;
  request self ("/cards/" ++ cardId ++ "/comments")
    (mkOptions (Some "POST")
       (Some (JSON_stringify
                (JS.Object [("comment", JS.Object [("body", JS.Str body)])])))).

(** **** Tags *)

Definition addTag (self : FizzyClient) (cardId tagTitle : string) : M unit :=
  lift (validateId cardId "cardId") ;;;
  request self ("/cards/" ++ cardId ++ "/taggings")
    (mkOptions (Some "POST")
       (Some (JSON_stringify (JS.Object [("tag_title", JS.Str tagTitle)])))) ;;;
  ret tt.

Definition removeTag (self : FizzyClient) (cardId tagTitle : string) : M unit :=
  lift (validateId cardId "cardId") ;;;
  (* toggle_tag_with removes if exists *)
  request self ("/cards/" ++ cardId ++ "/taggings")
    (mkOptions (Some "POST")
       (Some (JSON_stringify (JS.Object [("tag_title", JS.Str tagTitle)])))) ;;;
  ret tt.

(** *** The tool-call handler *)

(** [v.field] at the static type [string]: after [validateToolArgs] a
    required field holds a string (see [validated_required_string]). *)
Definition the_string (v : JS.Value) (field : string) : string :=
  match JS.get v field with
  | JS.Str s => s
  | _ => EmptyString
  end.

(** [v.field] at the static type [string | undefined]. *)
Definition the_optional (v : JS.Value) (field : string) : option string :=
  match JS.get v field with
  | JS.Str s => Some s
  | _ => None
  end.

(** The [try] block of the handler, up to the value of [result]. *)
Definition tool_result (client : FizzyClient) (name : string) (args : JS.Value)
  : M JS.Value :=
  if name =? "fizzy_list_boards" then
    listBoards client
  else if name =? "fizzy_get_board" then
    v <- lift (validateToolArgs args [("board_id", "string")] name) ;;
    getBoard client (the_string v "board_id")
  else if name =? "fizzy_create_board" then
    v <- lift (validateToolArgs args
                 [("name", "string"); ("description", "string?")] name) ;;
    createBoard client (the_string v "name") (the_optional v "description")
  else if name =? "fizzy_list_cards" then
    v <- lift (validateToolArgs args [("board_id", "string?")] name) ;;
    listCards client (the_optional v "board_id")
  else if name =? "fizzy_get_card" then
    v <- lift (validateToolArgs args [("card_id", "string")] name) ;;
    getCard client (the_string v "card_id")
  else if name =? "fizzy_create_card" then
    v <- lift (validateToolArgs args
                 [("board_id", "string"); ("title", "string");
                  ("description", "string?")] name) ;;
    createCard client (the_string v "board_id") (the_string v "title")
      (the_optional v "description")
  else if name =? "fizzy_update_card" then
    v <- lift (validateToolArgs args
                 [("card_id", "string"); ("title", "string?");
                  ("description", "string?")] name) ;;
    updateCard client (the_string v "card_id")
      (JS.Object [("title", optional (the_optional v "title"));
                  ("description", optional (the_optional v "description"))])
  else if name =? "fizzy_move_card" then
    v <- lift (validateToolArgs args
                 [("card_id", "string"); ("column", "string")] name) ;;
    (if the_string v "column" =? "done" then
       moveCardToDone client (the_string v "card_id")
     else if the_string v "column" =? "not_now" then
       moveCardToNotNow client (the_string v "card_id")
     else
       moveCardToColumn client (the_string v "card_id") (the_string v "column")) ;;;
    ret (JS.Object [("success", JS.Bool true);
                    ("message", JS.Str ("Card moved to " ++ the_string v "column"))])
  else if name =? "fizzy_list_columns" then
    v <- lift (validateToolArgs args [("board_id", "string")] name) ;;
    listColumns client (the_string v "board_id")
  else if name =? "fizzy_add_comment" then
    v <- lift (validateToolArgs args
                 [("card_id", "string"); ("body", "string")] name) ;;
    addComment client (the_string v "card_id") (the_string v "body")
  else if name =? "fizzy_list_comments" then
    v <- lift (validateToolArgs args [("card_id", "string")] name) ;;
    listComments client (the_string v "card_id")
  else if name =? "fizzy_add_tag" then
    v <- lift (validateToolArgs args
                 [("card_id", "string"); ("tag", "string")] name) ;;
    addTag client (the_string v "card_id") (the_string v "tag") ;;;
    ret (JS.Object [("success", JS.Bool true);
                    ("message", JS.Str ("Tag '" ++ the_string v "tag" ++ "' added to card"))])
  else if name =? "fizzy_remove_tag" then
    v <- lift (validateToolArgs args
                 [("card_id", "string"); ("tag", "string")] name) ;;
    removeTag client (the_string v "card_id") (the_string v "tag") ;;;
    ret (JS.Object [("success", JS.Bool true);
                    ("message", JS.Str ("Tag '" ++ the_string v "tag" ++ "' removed from card"))])
  else
    throw ("Unknown tool: " ++ name).

(** What the handler answers: one text item, and [isError] when it failed. *)
Record ToolResponse : Type := mkToolResponse {
  text : string;
  isError : bool
}.

(** The [CallToolRequestSchema] handler: [try { ... } catch (error) { ... }]. *)
Definition callTool (client : FizzyClient) (name : string) (args : JS.Value)
  : World -> ToolResponse * World :=
  fun w =>
    match tool_result client name args w with
    | (Return result, w') => (mkToolResponse (JSON_stringify_indent result 2) false, w')
    | (Throw message, w') => (mkToolResponse ("Error: " ++ message) true, w')
    end.

End Gateway.

(** ** TOOLS *)

Record Property : Type := mkProperty {
  type : string;
  property_description : string
}.

Record InputSchema : Type := mkInputSchema {
  schema_type : string;
  properties : list (string * Property);
  required : list string
}.

Record Tool : Type := mkTool {
  name : string;
  description : string;
  inputSchema : InputSchema
}.

Definition TOOLS : list Tool :=
  [ mkTool "fizzy_list_boards" "List all Fizzy boards in the account"
      (mkInputSchema "object" [] []);
    mkTool "fizzy_get_board" "Get details of a specific Fizzy board"
      (mkInputSchema "object"
         [("board_id", mkProperty "string" "The ID of the board")]
         ["board_id"]);
    mkTool "fizzy_create_board" "Create a new Fizzy board"
      (mkInputSchema "object"
         [("name", mkProperty "string" "Name of the board");
          ("description", mkProperty "string" "Optional description of the board")]
         ["name"]);
    mkTool "fizzy_list_cards" "List cards. Optionally filter by board ID."
      (mkInputSchema "object"
         [("board_id", mkProperty "string" "Optional: filter cards by board ID")]
         []);
    mkTool "fizzy_get_card" "Get details of a specific card"
      (mkInputSchema "object"
         [("card_id", mkProperty "string" "The ID of the card")]
         ["card_id"]);
    mkTool "fizzy_create_card" "Create a new card on a Fizzy board"
      (mkInputSchema "object"
         [("board_id", mkProperty "string" "The ID of the board");
          ("title", mkProperty "string" "Title of the card");
          ("description", mkProperty "string"
             "Optional description of the card (supports HTML with links)")]
         ["board_id"; "title"]);
    mkTool "fizzy_update_card" "Update an existing card"
      (mkInputSchema "object"
         [("card_id", mkProperty "string" "The ID of the card");
          ("title", mkProperty "string" "New title for the card");
          ("description", mkProperty "string"
             "New description for the card (supports HTML with links)")]
         ["card_id"]);
    mkTool "fizzy_move_card"
      "Move a card to a different column (use 'done' or 'not_now' for special columns)"
      (mkInputSchema "object"
         [("card_id", mkProperty "string" "The ID of the card");
          ("column", mkProperty "string"
             "Target column: 'done', 'not_now', or a column ID for custom columns")]
         ["card_id"; "column"]);
    mkTool "fizzy_list_columns" "List all columns on a Fizzy board"
      (mkInputSchema "object"
         [("board_id", mkProperty "string" "The ID of the board")]
         ["board_id"]);
    mkTool "fizzy_add_comment" "Add a comment to a card"
      (mkInputSchema "object"
         [("card_id", mkProperty "string" "The ID of the card");
          ("body", mkProperty "string" "Comment text (supports HTML)")]
         ["card_id"; "body"]);
    mkTool "fizzy_list_comments" "List all comments on a card"
      (mkInputSchema "object"
         [("card_id", mkProperty "string" "The ID or number of the card")]
         ["card_id"]);
    mkTool "fizzy_add_tag" "Add a tag to a card. Creates the tag if it doesn't exist."
      (mkInputSchema "object"
         [("card_id", mkProperty "string" "The ID or number of the card");
          ("tag", mkProperty "string" "Tag name to add")]
         ["card_id"; "tag"]);
    mkTool "fizzy_remove_tag" "Remove a tag from a card"
      (mkInputSchema "object"
         [("card_id", mkProperty "string" "The ID or number of the card");
          ("tag", mkProperty "string" "Tag name to remove")]
         ["card_id"; "tag"]) ].

(** The schema an entry of [TOOLS] declares, in the notation of
    [validateToolArgs]: a property outside [required] gets the [?] mark. *)
Definition declared_schema (t : Tool) : Schema :=
  map (fun p : string * Property =>
         let (field, prop) := p in
         (field,
          if existsb (String.eqb field) (required (inputSchema t))
          then type prop
          else type prop ++ "?"))
      (properties (inputSchema t)).

(** ** What the specification says, in its own words *)

(** [needle] occurs in [hay]. *)
Definition occurs_in (needle hay : string) : Prop :=
  exists before after, hay = before ++ needle ++ after.

Definition starts_with_digit (s : string) : bool :=
  match s with
  | String c _ => JS.is_digit c
  | EmptyString => false
  end.

(** [d] is a non-empty run of digits. *)
Definition digit_run (d : string) : Prop :=
  d <> EmptyString /\ all_chars JS.is_digit d = true.

(** [location] has a segment [/cards/<digits>] at offset [String.length before]. *)
Definition cards_segment (location before d after : string) : Prop :=
  location = before ++ "/cards/" ++ d ++ after /\ digit_run d.

(** [d] is the whole digit run of the first segment [/cards/<digits>]. *)
Definition first_cards_segment (location d : string) : Prop :=
  exists before after,
    cards_segment location before d after
    /\ starts_with_digit after = false
    /\ forall before' d' after',
         cards_segment location before' d' after' ->
         String.length before <= String.length before'.

Definition no_cards_segment (location : string) : Prop :=
  forall before d after, ~ cards_segment location before d after.

(** An identifier the pattern refuses: empty, or with a character that is
    not an ASCII letter or digit. *)
Definition invalid_identifier (id : string) : Prop :=
  id = EmptyString
  \/ exists c, In c (list_ascii_of_string id) /\ is_alnum c = false.

(** [message] is an invalid-identifier error that names the parameter and
    the value it refuses. *)
Definition InvalidIdentifier (paramName id message : string) : Prop :=
  occurs_in ("Invalid " ++ paramName) message /\ occurs_in id message.

(** [args] is record-shaped: the first test of [validateToolArgs] passes. *)
Definition record_shaped (args : JS.Value) : Prop :=
  JS.truthy args = true /\ JS.typeof args = "object".

(** The required fields of [schema] that [args] leaves out (absent or [null]). *)
Definition missing_fields (args : JS.Value) (schema : Schema) : list string :=
  map fst
    (filter (fun e : string * string =>
               negb (endsWith_qmark (snd e)) && JS.is_nullish (JS.get args (fst e)))
            schema).

(** The type a schema entry expects, without its [?] mark. *)
Definition expected_base (expectedType : string) : string :=
  if endsWith_qmark expectedType then slice_0_m1 expectedType else expectedType.

(** The fields of [schema] that [args] gives with the wrong type:
    field, expected type, actual type. *)
Definition wrong_fields (args : JS.Value) (schema : Schema)
  : list (string * string * string) :=
  map (fun e : string * string =>
         (fst e, expected_base (snd e), JS.typeof (JS.get args (fst e))))
    (filter (fun e : string * string =>
               negb (JS.is_nullish (JS.get args (fst e)))
               && negb (JS.typeof (JS.get args (fst e)) =? expected_base (snd e)))
            schema).

Definition wrong_field_name (w : string * string * string) : string :=
  fst (fst w).

(** The property list without the key [field]. *)
Definition remove_field (field : string) (props : list (string * JS.Value))
  : list (string * JS.Value) :=
  filter (fun p : string * JS.Value => negb (fst p =? field)) props.

Definition render_wrong (w : string * string * string) : string :=
  let '(field, expected, actual) := w in
  field ++ " (expected " ++ expected ++ ", got " ++ actual ++ ")".

(** The one message that lists every violation. *)
Definition violations_message (toolName : string) (miss : list string)
    (wrong : list (string * string * string)) : string :=
  ("Tool '" ++ toolName ++ "' validation failed:")
  ++ match miss with
     | [] => EmptyString
     | _ => " Missing: " ++ String.concat ", " miss ++ "."
     end
  ++ match wrong with
     | [] => EmptyString
     | _ => " Wrong type: " ++ String.concat ", " (map render_wrong wrong) ++ "."
     end.

(** [s] ends with a slash. *)
Fixpoint ends_with_slash (s : string) : bool :=
  match s with
  | EmptyString => false
  | String c EmptyString => (c =? "/")%char
  | String _ r => ends_with_slash r
  end.

(** The call [m] refuses the identifier [id] of its parameter [paramName]
    before it touches the world. *)
Definition rejects_identifier {R : Runtime} {A : Type} (m : M A)
    (paramName id : string) : Prop :=
  forall w, exists message,
    m w = (Throw message, w) /\ InvalidIdentifier paramName id message.

(** The tool [toolName], whose arguments the handler checks against
    [schema], refuses an invalid identifier in its argument [field]: the
    answer is an invalid-identifier error for [paramName], and the world is
    as before the call. *)
Definition tool_rejects_identifier {R : Runtime} (client : FizzyClient)
    (toolName : string) (schema : Schema) (field paramName : string) : Prop :=
  forall args v w,
    validateToolArgs args schema toolName = Return v ->
    invalid_identifier (the_string args field) ->
    exists message,
      callTool client toolName args w
      = (mkToolResponse ("Error: " ++ message) true, w)
      /\ InvalidIdentifier paramName (the_string args field) message.

(** ** A canned runtime for the examples *)

(** The remote service answers from a script, one entry per request; the
    JSON codec knows the few texts the examples use. *)
Definition sample_parse (s : string) : option JS.Value :=
  if s =? "{}" then Some (JS.Object [])
  else if s =? "[]" then Some (JS.Array [])
  else if s =? "null" then Some JS.Null
  else None.

Definition sample_stringify (v : JS.Value) : string :=
  match v with
  | JS.Object [(k, JS.Str s)] =>
      "{" ++ dquote ++ k ++ dquote ++ ":" ++ dquote ++ s ++ dquote ++ "}"
  | JS.Object [] => "{}"
  | JS.Array [] => "[]"
  | JS.Null => "null"
  | _ => "[object]"
  end.

Definition sample_runtime : Runtime := {|
  Net := list (Outcome Response);
  fetch := fun script _ _ =>
             match script with
             | [] => ([], Throw "fetch failed")
             | r :: rest => (rest, r)
             end;
  JSON_parse := sample_parse;
  JSON_stringify := sample_stringify;
  JSON_stringify_indent := fun v _ => sample_stringify v
|}.

Definition sample_client : FizzyClient :=
  new_FizzyClient "http://localhost:3737/" "secret" "1".

Definition empty_ok : Response := mkResponse 200 [] EmptyString.

Definition created_42 : Response :=
  mkResponse 201 [("Location", "/1/cards/42.json")] EmptyString.

Definition not_now_fragment : Response :=
  mkResponse 200 [("Content-Type", "text/html")] "<div>not now</div>".

Definition not_found : Response := mkResponse 404 [] "not found".

Definition move_card_tool : Tool :=
  mkTool "fizzy_move_card"
    "Move a card to a different column (use 'done' or 'not_now' for special columns)"
    (mkInputSchema "object"
       [("card_id", mkProperty "string" "The ID of the card");
        ("column", mkProperty "string"
           "Target column: 'done', 'not_now', or a column ID for custom columns")]
       ["card_id"; "column"]).

Definition create_board_tool : Tool :=
  mkTool "fizzy_create_board" "Create a new Fizzy board"
    (mkInputSchema "object"
       [("name", mkProperty "string" "Name of the board");
        ("description", mkProperty "string" "Optional description of the board")]
       ["name"]).

Definition get_card_tool : Tool :=
  mkTool "fizzy_get_card" "Get details of a specific card"
    (mkInputSchema "object"
       [("card_id", mkProperty "string" "The ID of the card")]
       ["card_id"]).

Definition list_cards_tool : Tool :=
  mkTool "fizzy_list_cards" "List cards. Optionally filter by board ID."
    (mkInputSchema "object"
       [("board_id", mkProperty "string" "Optional: filter cards by board ID")]
       []).

(** The world in which the remote service will answer with [script]. *)
Definition sample_world (script : list (Outcome Response)) : World (R := sample_runtime) :=
  mkWorld (R := sample_runtime) script [].

(** A service that always answers with the same three cards. *)
Definition card_nested : JS.Value :=
  JS.Object [("id", JS.Str "c1"); ("board", JS.Object [("id", JS.Str "b1")])].

Definition card_other : JS.Value :=
  JS.Object [("id", JS.Str "c2"); ("board_id", JS.Str "b2")].

Definition card_flat : JS.Value :=
  JS.Object [("id", JS.Str "c3"); ("board", JS.Null); ("board_id", JS.Str "b1")].

Definition cards_runtime : Runtime := {|
  Net := unit;
  fetch := fun _ _ _ => (tt, Return (mkResponse 200 [] "[three cards]"));
  JSON_parse := fun _ => Some (JS.Array [card_nested; card_other; card_flat]);
  JSON_stringify := sample_stringify;
  JSON_stringify_indent := fun v _ => sample_stringify v
|}.

(** ** Further notions for the handler as a whole *)

(** The tail of the handler: the answer for a [result], or for a caught error. *)
Definition answer {R : Runtime} (o : Outcome JS.Value) : ToolResponse :=
  match o with
  | Return result => mkToolResponse (JSON_stringify_indent result 2) false
  | Throw message => mkToolResponse ("Error: " ++ message) true
  end.

(** One [request] to [path], its value passed through [finish], answered. *)
Definition relay_with {R : Runtime} (finish : JS.Value -> Outcome JS.Value)
    (client : FizzyClient) (path : string) (options : Options) (w : World)
  : ToolResponse * World :=
  let r := request client path options w in
  (answer (match fst r with
           | Return v => finish v
           | Throw message => Throw message
           end),
   snd r).

(** One [request] to [path], answered as it is. *)
Definition relay {R : Runtime} : FizzyClient -> string -> Options -> World
                                 -> ToolResponse * World :=
  relay_with (fun v => Return v).

(** [path] lies under [/boards] or under [/cards]. *)
Definition board_or_card_path (path : string) : Prop :=
  strip_prefix "/boards" path <> None \/ strip_prefix "/cards" path <> None.

(** The events of at most one exchange with the service: nothing, or one
    request of [client], or one request and then one read of its body. *)
Definition one_exchange (client : FizzyClient) (evs : list Event) : Prop :=
  evs = []
  \/ exists path options,
       board_or_card_path path
       /\ (evs = [Fetched (request_url client path) (request_init client options)]
           \/ evs = [Fetched (request_url client path) (request_init client options);
                     TextRead]).

(** [m] leaves the world as it is. *)
Definition quiet {R : Runtime} {A : Type} (m : M A) : Prop :=
  forall w, snd (m w) = w.

(** [m] adds the events of at most one exchange to the trace. *)
Definition polite {R : Runtime} {A : Type} (client : FizzyClient) (m : M A) : Prop :=
  forall w, exists evs,
    trace (snd (m w)) = (trace w ++ evs)%list /\ one_exchange client evs.

(** Every [fetch] in the world [w] is rejected. *)
Definition network_down {R : Runtime} (w : World) : Prop :=
  forall url init, exists n message, fetch (net w) url init = (n, Throw message).

(** [m] throws whenever the network is down. *)
Definition needs_network {R : Runtime} {A : Type} (m : M A) : Prop :=
  forall w, network_down w -> exists message, fst (m w) = Throw message.

(** A card that refers to the board [boardId], by a nested [board.id] or by
    a flat [board_id]. *)
Definition card_on_board (boardId : string) (c : JS.Value) : bool :=
  JS.strict_eq_string (JS.get (JS.get c "board") "id") boardId
  || JS.strict_eq_string (JS.get c "board_id") boardId.

(** [x], under the key [k], is a value the schema lets through: what [args]
    gives for the declared field [k], present and of the expected type. *)
Definition declared_value (args : JS.Value) (schema : Schema)
    (k : string) (x : JS.Value) : Prop :=
  x = JS.get args k
  /\ JS.is_nullish x = false
  /\ exists expectedType,
       In (k, expectedType) schema /\ JS.typeof x = expected_base expectedType.

(** *** The environment of the process *)

(** [process.env]: each variable is a string or [undefined]. *)
Record Environment : Type := mkEnvironment {
  env_FIZZY_URL : option string;
  env_FIZZY_TOKEN : option string;
  env_FIZZY_ACCOUNT_ID : option string
}.

(** [value || fallback] *)
Definition or_default (value : option string) (fallback : string) : string :=
  if JS.truthy (optional value)
  then match value with
       | Some s => s
       | None => fallback
       end
  else fallback.

Definition FIZZY_URL (env : Environment) : string :=
  or_default (env_FIZZY_URL env) "http://localhost:3737".

Definition FIZZY_TOKEN (env : Environment) : string :=
  or_default (env_FIZZY_TOKEN env) EmptyString.

Definition FIZZY_ACCOUNT_ID (env : Environment) : string :=
  or_default (env_FIZZY_ACCOUNT_ID env) "1".

(** The client that [main] constructs. *)
Definition main_client (env : Environment) : FizzyClient :=
  new_FizzyClient (FIZZY_URL env) (FIZZY_TOKEN env) (FIZZY_ACCOUNT_ID env).

(** * Properties *)

(** ** Strings *)

Lemma append_assoc (a b c : string) : (a ++ b) ++ c = a ++ (b ++ c).
Proof. induction a as [|x a IH]; simpl; [reflexivity | now rewrite IH]. Qed.

Lemma append_nil_r (a : string) : a ++ EmptyString = a.
Proof. induction a as [|x a IH]; simpl; [reflexivity | now rewrite IH]. Qed.

Lemma occurs_in_self_prefix (a b : string) : occurs_in a (a ++ b).
Proof. exists EmptyString, b. reflexivity. Qed.

Lemma occurs_in_append_r (x a b : string) : occurs_in x b -> occurs_in x (a ++ b).
Proof.
  intros (p & q & ->). exists (a ++ p), q. now rewrite append_assoc.
Qed.

Lemma ascii_eqb_true (a b : ascii) : (a =? b)%char = true -> a = b.
Proof. apply Ascii.eqb_eq. Qed.

(** ** The base URL *)

Lemma replace_trailing_slash_keeps (s : string) :
  ends_with_slash s = false -> replace_trailing_slash s = s.
Proof.
  induction s as [|c r IH]; simpl; [reflexivity|].
  destruct r as [|c' r'].
  - intros ->. reflexivity.
  - intros H. now rewrite (IH H).
Qed.

Lemma replace_trailing_slash_removes (s : string) :
  replace_trailing_slash (s ++ "/") = s.
Proof.
  induction s as [|c r IH]; [reflexivity|].
  change (String c r ++ "/") with (String c (r ++ "/")).
  simpl. rewrite IH. destruct r; reflexivity.
Qed.

Lemma ends_with_slash_append (s : string) : ends_with_slash (s ++ "/") = true.
Proof.
  induction s as [|c r IH]; [reflexivity|].
  change (String c r ++ "/") with (String c (r ++ "/")).
  simpl. rewrite IH. destruct r; reflexivity.
Qed.

Lemma ends_with_slash_inv (s : string) :
  ends_with_slash s = true -> exists r, s = r ++ "/".
Proof.
  induction s as [|c r IH]; simpl; [discriminate|].
  destruct r as [|c' r'].
  - intros H. apply ascii_eqb_true in H. subst c. now exists EmptyString.
  - intros H. destruct (IH H) as (q & E). exists (String c q). simpl. now rewrite <- E.
Qed.

(** C9 as stated fails: a base URL that ends in two slashes keeps one. *)
Lemma baseUrl_trailing_slash_counterexample :
  ends_with_slash (baseUrl (new_FizzyClient "http://localhost:3737//" "secret" "1")) = true.
Proof. reflexivity. Qed.

(** ** The regular expression [/\/cards\/(\d+)/] *)

Lemma strip_prefix_some (p s r : string) :
  strip_prefix p s = Some r -> s = p ++ r.
Proof.
  revert s. induction p as [|a p IH]; intros s; simpl.
  - now intros [= ->].
  - destruct s as [|b s]; [discriminate|].
    destruct (a =? b)%char eqn:E; [|discriminate].
    apply ascii_eqb_true in E. subst b. intros H. now rewrite (IH _ H).
Qed.

Lemma strip_prefix_append (p r : string) : strip_prefix p (p ++ r) = Some r.
Proof.
  induction p as [|a p IH]; simpl; [reflexivity|].
  now rewrite Ascii.eqb_refl.
Qed.

Lemma take_digits_split (s : string) :
  exists rest, s = take_digits s ++ rest /\ starts_with_digit rest = false.
Proof.
  induction s as [|c s (rest & E & H)]; simpl.
  - now exists EmptyString.
  - destruct (JS.is_digit c) eqn:D.
    + exists rest. simpl. now rewrite <- E.
    + exists (String c s). simpl. now rewrite D.
Qed.

Lemma take_digits_all (s : string) : all_chars JS.is_digit (take_digits s) = true.
Proof.
  induction s as [|c s IH]; simpl; [reflexivity|].
  destruct (JS.is_digit c) eqn:D; simpl; [now rewrite D|reflexivity].
Qed.

Lemma take_digits_run (d after : string) :
  digit_run d -> take_digits (d ++ after) <> EmptyString.
Proof.
  intros [Hne Hall]. destruct d as [|c d]; [contradiction|].
  simpl in *. apply andb_prop in Hall. destruct Hall as [-> _]. discriminate.
Qed.

Lemma cards_at_head_some (s d : string) :
  cards_at_head s = Some d ->
  exists after,
    cards_segment s EmptyString d after /\ starts_with_digit after = false.
Proof.
  unfold cards_at_head.
  destruct (strip_prefix "/cards/" s) as [rest|] eqn:P; [|discriminate].
  apply strip_prefix_some in P.
  destruct (take_digits_split rest) as (after & E & H).
  pose proof (take_digits_all rest) as A.
  destruct (take_digits rest) as [|c r] eqn:T; [discriminate|].
  intros [= <-]. exists after. repeat split; trivial.
  - subst s. simpl. simpl in E. now rewrite <- E.
  - discriminate.
Qed.

Lemma cards_at_head_none (s d after : string) :
  cards_at_head s = None -> ~ cards_segment s EmptyString d after.
Proof.
  unfold cards_at_head. intros H [E Hd].
  change (s = "/cards/" ++ (d ++ after)) in E. subst s.
  rewrite strip_prefix_append in H.
  pose proof (take_digits_run after Hd) as T.
  destruct (take_digits (d ++ after)); [now apply T | discriminate].
Qed.

Lemma cards_segment_tail (c : ascii) (s before d after : string) :
  cards_segment (String c s) (String c before) d after <->
  cards_segment s before d after.
Proof.
  unfold cards_segment. simpl. split; intros [E H]; split; trivial.
  - now injection E.
  - now rewrite E.
Qed.

(** A successful match captures the whole digit run of the first segment. *)
Lemma match_cards_some (s d : string) :
  match_cards s = Some d -> first_cards_segment s d.
Proof.
  induction s as [|c s IH].
  - simpl. destruct (cards_at_head EmptyString) eqn:H; discriminate.
  - simpl. destruct (cards_at_head (String c s)) as [d0|] eqn:H.
    + intros [= ->]. destruct (cards_at_head_some _ H) as (after & Seg & Nd).
      exists EmptyString, after. split; [exact Seg|]. split; [exact Nd|].
      intros. simpl. apply Nat.le_0_l.
    + intros M. destruct (IH M) as (before & after & Seg & Nd & Min).
      exists (String c before), after. split; [|split; [exact Nd|]].
      * now apply cards_segment_tail.
      * intros before' d' after' Seg'. destruct before' as [|c' before'].
        -- exfalso. exact (cards_at_head_none H Seg').
        -- assert (c' = c) by (destruct Seg' as [E _]; simpl in E; congruence).
           subst c'. apply (proj1 (cards_segment_tail _ _ _ _ _)) in Seg'.
           specialize (Min _ _ _ Seg'). simpl. now apply le_n_S.
Qed.

(** A [null] match means that no segment is there. *)
Lemma match_cards_none (s : string) :
  match_cards s = None -> no_cards_segment s.
Proof.
  induction s as [|c s IH]; simpl.
  - destruct (cards_at_head EmptyString) eqn:H; [discriminate|].
    intros _ before d after Seg. destruct before as [|c' before'].
    + exact (cards_at_head_none H Seg).
    + destruct Seg as [E _]. discriminate.
  - destruct (cards_at_head (String c s)) eqn:H; [discriminate|].
    intros M before d after Seg. destruct before as [|c' before'].
    + exact (cards_at_head_none H Seg).
    + assert (c' = c) by (destruct Seg as [E _]; simpl in E; congruence).
      subst c'. apply (proj1 (cards_segment_tail _ _ _ _ _)) in Seg.
      exact (IH M _ _ _ Seg).
Qed.

(** ** Traces *)

Lemma requests_app (t u : list Event) :
  requests (t ++ u) = (requests t ++ requests u)%list.
Proof. unfold requests. apply flat_map_app. Qed.

Lemma requests_fetched (t : list Event) (url : string) (init : RequestInit) :
  requests (t ++ [Fetched url init]) = (requests t ++ [(url, init)])%list.
Proof. now rewrite requests_app. Qed.

Lemma requests_text (t : list Event) : requests (t ++ [TextRead]) = requests t.
Proof. rewrite requests_app. simpl. apply app_nil_r. Qed.

Lemma body_reads_fetched (t : list Event) (url : string) (init : RequestInit) :
  body_reads (t ++ [Fetched url init]) = body_reads t.
Proof.
  unfold body_reads. rewrite filter_app, length_app. simpl. lia.
Qed.

Section RequestProperties.

Context {R : Runtime}.

Implicit Types (self client : FizzyClient) (w : World).

Ltac run_request :=
  unfold request, bind, await_fetch, await_text, ret, throw; simpl.

(** [request] issues one request, whatever the service answers. *)
Lemma request_requests self path options w :
  requests (trace (snd (request self path options w)))
  = (requests (trace w) ++ [(request_url self path, request_init self options)])%list.
Proof.
  run_request.
  destruct (fetch (net w) _ _) as [n [resp|m]]; simpl.
  - destruct (negb (ok resp)); simpl.
    + now rewrite requests_text, requests_fetched.
    + destruct (status resp =? 201)%nat.
      * destruct (Headers_get _ _) as [l|]; simpl;
          [destruct (negb (l =? EmptyString))|]; simpl; apply requests_fetched.
      * simpl. destruct (negb (negb _)); simpl;
          [|destruct (JSON_parse _)]; simpl;
          now rewrite requests_text, requests_fetched.
  - apply requests_fetched.
Qed.

Lemma ok_true_iff (resp : Response) :
  ok resp = true <-> 200 <= status resp <= 299.
Proof.
  unfold ok. rewrite andb_true_iff, !Nat.leb_le. tauto.
Qed.

Lemma ok_false_iff (resp : Response) :
  ok resp = false <-> status resp < 200 \/ 299 < status resp.
Proof.
  unfold ok. rewrite andb_false_iff, !Nat.leb_gt. tauto.
Qed.

(** C1 (amended): a 201 response whose [Location] header value is not empty
    is answered without reading the body, with exactly the object
    [{success: true, message: "Card created", card_number: n, location: l}]:
    [l] is the raw header value, and [n] is the whole digit run of the first
    segment [/cards/<digits>] of [l], or [null] when [l] has no such segment. *)
Theorem request_created_with_location self path options w n resp location :
  fetch (net w) (request_url self path) (request_init self options) = (n, Return resp) ->
  status resp = 201 ->
  Headers_get "Location" (response_headers resp) = Some location ->
  location <> EmptyString ->
  exists cardNumber,
    request self path options w
    = (Return (JS.Object [("success", JS.Bool true);
                          ("message", JS.Str "Card created");
                          ("card_number", cardNumber);
                          ("location", JS.Str location)]),
       mkWorld n (trace w ++ [Fetched (request_url self path) (request_init self options)]))
    /\ body_reads (trace (snd (request self path options w))) = body_reads (trace w)
    /\ ((exists d, cardNumber = JS.Str d /\ first_cards_segment location d)
        \/ (cardNumber = JS.Null /\ no_cards_segment location)).
Proof.
  intros F S L Hne.
  assert (Run : request self path options w
    = (Return (JS.Object [("success", JS.Bool true);
                          ("message", JS.Str "Card created");
                          ("card_number",
                           match match_cards location with
                           | Some d => JS.Str d
                           | None => JS.Null
                           end);
                          ("location", JS.Str location)]),
       mkWorld n (trace w ++ [Fetched (request_url self path) (request_init self options)]))).
  { run_request. rewrite F. simpl.
    assert (O : ok resp = true) by (apply ok_true_iff; lia).
    rewrite O, S, L. simpl.
    apply String.eqb_neq in Hne. now rewrite Hne. }
  eexists. split; [exact Run|]. split.
  - rewrite Run. simpl. apply body_reads_fetched.
  - destruct (match_cards location) as [d|] eqn:Mt.
    + left. exists d. split; [reflexivity|]. now apply match_cards_some.
    + right. split; [reflexivity|]. now apply match_cards_none.
Qed.

(** C5: the other 2xx responses.  A 201 without a [Location] header gives
    [{success: true}]; any other 2xx status gives the empty object for an
    empty body, the parsed value for a body that parses as JSON, and
    [{html: text}] around the raw body text otherwise. *)
Theorem request_success_normalized self path options w n resp :
  fetch (net w) (request_url self path) (request_init self options) = (n, Return resp) ->
  200 <= status resp <= 299 ->
  let sent := (trace w ++ [Fetched (request_url self path) (request_init self options)])%list in
  (status resp = 201 ->
   Headers_get "Location" (response_headers resp) = None ->
   request self path options w
   = (Return (JS.Object [("success", JS.Bool true)]), mkWorld n sent))
  /\ (status resp <> 201 ->
      response_body resp = EmptyString ->
      request self path options w
      = (Return (JS.Object []), mkWorld n (sent ++ [TextRead])))
  /\ (status resp <> 201 ->
      response_body resp <> EmptyString ->
      forall v, JSON_parse (response_body resp) = Some v ->
      request self path options w = (Return v, mkWorld n (sent ++ [TextRead])))
  /\ (status resp <> 201 ->
      response_body resp <> EmptyString ->
      JSON_parse (response_body resp) = None ->
      request self path options w
      = (Return (JS.Object [("html", JS.Str (response_body resp))]),
         mkWorld n (sent ++ [TextRead]))).
Proof.
  intros F Hok sent. apply ok_true_iff in Hok.
  repeat split.
  - intros S L. run_request. rewrite F. simpl. now rewrite Hok, S, L.
  - intros S B. run_request. rewrite F. simpl. rewrite Hok. simpl.
    apply Nat.eqb_neq in S. rewrite S. simpl. now rewrite B.
  - intros S B v P. run_request. rewrite F. simpl. rewrite Hok. simpl.
    apply Nat.eqb_neq in S. rewrite S. simpl.
    apply String.eqb_neq in B. rewrite B. simpl. now rewrite P.
  - intros S B P. run_request. rewrite F. simpl. rewrite Hok. simpl.
    apply Nat.eqb_neq in S. rewrite S. simpl.
    apply String.eqb_neq in B. rewrite B. simpl. now rewrite P.
Qed.

(** C6: a response outside 2xx makes the call throw an error whose message
    carries the status code in decimal and the raw body text; no value is
    returned. *)
Theorem request_remote_error self path options w n resp :
  fetch (net w) (request_url self path) (request_init self options) = (n, Return resp) ->
  status resp < 200 \/ 299 < status resp ->
  let message :=
    "Fizzy API error (" ++ string_of_nat (status resp) ++ "): " ++ response_body resp in
  request self path options w
  = (Throw message,
     mkWorld n (trace w ++ [Fetched (request_url self path) (request_init self options)]
                ++ [TextRead]))
  /\ occurs_in (string_of_nat (status resp)) message
  /\ occurs_in (response_body resp) message
  /\ (forall v w', request self path options w <> (Return v, w')).
Proof.
  intros F Hok message. apply ok_false_iff in Hok.
  assert (Run : request self path options w
    = (Throw message,
       mkWorld n (trace w ++ [Fetched (request_url self path) (request_init self options)]
                  ++ [TextRead]))).
  { run_request. rewrite F. simpl. rewrite Hok. simpl.
    now rewrite <- app_assoc. }
  split; [exact Run|]. split; [|split].
  - apply occurs_in_append_r, occurs_in_self_prefix.
  - unfold message. rewrite <- append_assoc.
    exists ("Fizzy API error (" ++ string_of_nat (status resp) ++ "): "), EmptyString.
    rewrite append_nil_r. now rewrite !append_assoc.
  - intros v w'. rewrite Run. discriminate.
Qed.

End RequestProperties.

(** *** Examples of the response policy *)

(** C1 as stated fails: the synthesized object has no key [cardNumber]. *)
Lemma request_created_key_counterexample :
  fst (request sample_client "/boards/b1/cards" (mkOptions (Some "POST") None)
         (sample_world [Return created_42]))
  <> Return (JS.Object [("success", JS.Bool true);
                        ("message", JS.Str "Card created");
                        ("cardNumber", JS.Str "42");
                        ("location", JS.Str "/1/cards/42.json")]).
Proof. vm_compute. intros H. discriminate H. Qed.

Lemma request_created_with_location_witness :
  exists cardNumber,
    request sample_client "/boards/b1/cards" (mkOptions (Some "POST") None)
      (sample_world [Return created_42])
    = (Return (JS.Object [("success", JS.Bool true);
                          ("message", JS.Str "Card created");
                          ("card_number", cardNumber);
                          ("location", JS.Str "/1/cards/42.json")]),
       mkWorld (R := sample_runtime) []
         ([] ++ [Fetched (request_url sample_client "/boards/b1/cards")
                   (request_init sample_client (mkOptions (Some "POST") None))]))
    /\ body_reads (trace (snd (request sample_client "/boards/b1/cards"
                                 (mkOptions (Some "POST") None)
                                 (sample_world [Return created_42]))))
       = body_reads (trace (sample_world [Return created_42]))
    /\ ((exists d, cardNumber = JS.Str d /\ first_cards_segment "/1/cards/42.json" d)
        \/ (cardNumber = JS.Null /\ no_cards_segment "/1/cards/42.json")).
Proof.
  apply (@request_created_with_location sample_runtime sample_client
           "/boards/b1/cards" (mkOptions (Some "POST") None)
           (sample_world [Return created_42]) [] created_42 "/1/cards/42.json").
  - reflexivity.
  - reflexivity.
  - reflexivity.
  - discriminate.
Defined.

(** The 201 of the specification: card number 42. *)
Example request_created_42 :
  fst (request sample_client "/boards/b1/cards" (mkOptions (Some "POST") None)
         (sample_world [Return created_42]))
  = Return (JS.Object [("success", JS.Bool true);
                       ("message", JS.Str "Card created");
                       ("card_number", JS.Str "42");
                       ("location", JS.Str "/1/cards/42.json")]).
Proof. reflexivity. Qed.

Lemma request_success_normalized_witness :
  request sample_client "/cards/7/not_now" (mkOptions (Some "POST") None)
    (sample_world [Return not_now_fragment])
  = (Return (JS.Object [("html", JS.Str "<div>not now</div>")]),
     mkWorld (R := sample_runtime) []
       [Fetched (request_url sample_client "/cards/7/not_now")
          (request_init sample_client (mkOptions (Some "POST") None));
        TextRead]).
Proof.
  refine (proj2 (proj2 (proj2
    (@request_success_normalized sample_runtime sample_client "/cards/7/not_now"
       (mkOptions (Some "POST") None) (sample_world [Return not_now_fragment])
       [] not_now_fragment _ _))) _ _ _).
  - reflexivity.
  - simpl. lia.
  - discriminate.
  - discriminate.
  - reflexivity.
Defined.

Lemma request_remote_error_witness :
  request sample_client "/cards/999" no_options (sample_world [Return not_found])
  = (Throw "Fizzy API error (404): not found",
     mkWorld (R := sample_runtime) []
       [Fetched (request_url sample_client "/cards/999")
          (request_init sample_client no_options);
        TextRead])
  /\ occurs_in "404" "Fizzy API error (404): not found"
  /\ occurs_in "not found" "Fizzy API error (404): not found"
  /\ (forall v w', request sample_client "/cards/999" no_options
                     (sample_world [Return not_found]) <> (Return v, w')).
Proof.
  apply (@request_remote_error sample_runtime sample_client "/cards/999" no_options
           (sample_world [Return not_found]) [] not_found).
  - reflexivity.
  - right. simpl. lia.
Defined.

(** The loop collects every missing and every mistyped field, in the order
    of the schema. *)
Lemma validate_entries_collect (args : JS.Value) (schema : Schema) (c : Collected) :
  let c' := fold_left (validate_entry args) schema c in
  missing c' = (missing c ++ missing_fields args schema)%list
  /\ wrongType c'
     = (wrongType c ++ map render_wrong (wrong_fields args schema))%list.
Proof.
  revert c. induction schema as [|[field expectedType] rest IH]; intros c.
  - simpl. unfold missing_fields, wrong_fields. simpl. now rewrite !app_nil_r.
  - destruct (IH (validate_entry args c (field, expectedType))) as [Hm Hw].
    cbv zeta in Hm, Hw |- *. cbn [fold_left]. rewrite Hm, Hw. clear Hm Hw IH.
    unfold missing_fields, wrong_fields, validate_entry, expected_base. simpl.
    destruct (JS.is_nullish (JS.get args field)) eqn:N; simpl.
    + destruct (endsWith_qmark expectedType); simpl.
      * split; reflexivity.
      * split; [now rewrite <- app_assoc | reflexivity].
    + rewrite andb_false_r.
      destruct (JS.typeof (JS.get args field)
                =? (if endsWith_qmark expectedType
                    then slice_0_m1 expectedType else expectedType)) eqn:T; simpl.
      * split; reflexivity.
      * split; [reflexivity | now rewrite <- app_assoc].
Qed.

Lemma validation_message_violations (toolName : string) (c : Collected)
    (wrong : list (string * string * string)) :
  wrongType c = map render_wrong wrong ->
  validation_message toolName c = violations_message toolName (missing c) wrong.
Proof.
  intros Hw. unfold validation_message, violations_message. rewrite Hw.
  generalize ("Tool '" ++ toolName ++ "' validation failed:") as header.
  intros header.
  destruct (missing c) as [|m ms]; destruct wrong as [|x xs];
    cbn [List.length map Nat.ltb Nat.leb].
  - simpl. now rewrite append_nil_r.
  - reflexivity.
  - now rewrite !append_nil_r.
  - now rewrite !append_assoc.
Qed.

(** On a record-shaped bag, validation returns exactly when nothing is
    missing or mistyped, and otherwise throws the message of all violations. *)
Lemma validateToolArgs_record (args : JS.Value) (schema : Schema) (toolName : string) :
  record_shaped args ->
  let miss := missing_fields args schema in
  let wrong := wrong_fields args schema in
  (miss = [] /\ wrong = []
   /\ exists bag, validateToolArgs args schema toolName = Return (JS.Object bag))
  \/ ((miss <> [] \/ wrong <> [])
      /\ validateToolArgs args schema toolName
         = Throw (violations_message toolName miss wrong)).
Proof.
  intros [Ht Ho] miss wrong. unfold validateToolArgs.
  rewrite Ht, Ho. simpl orb. cbv iota.
  destruct (validate_entries_collect args schema (mkCollected [] [] [])) as [Hm Hw].
  cbv zeta in Hm, Hw. simpl in Hm, Hw.
  fold miss in Hm. fold wrong in Hw.
  set (c := fold_left (validate_entry args) schema (mkCollected [] [] [])) in *.
  rewrite (validation_message_violations toolName c wrong Hw).
  rewrite Hm, Hw.
  destruct miss as [|m ms].
  - destruct wrong as [|x xs].
    + left. simpl. repeat split; trivial. now exists (validated c).
    + right. simpl. split; [right; discriminate | reflexivity].
  - right. simpl. split; [left; discriminate | reflexivity].
Qed.

(** ** The validated bag *)

Lemma lookup_assign_other (f g : string) (v : JS.Value) (props : list (string * JS.Value)) :
  f <> g -> JS.lookup g (JS.assign f v props) = JS.lookup g props.
Proof.
  intros Hne. apply String.eqb_neq in Hne.
  induction props as [|[k x] rest IH]; simpl.
  - now rewrite Hne.
  - destruct (k =? f) eqn:Ekf; simpl.
    + apply String.eqb_eq in Ekf. subst k. now rewrite Hne.
    + destruct (k =? g); [reflexivity | exact IH].
Qed.

Lemma lookup_assign_same (f : string) (v : JS.Value) (props : list (string * JS.Value)) :
  JS.lookup f (JS.assign f v props) = v.
Proof.
  induction props as [|[k x] rest IH]; simpl.
  - now rewrite String.eqb_refl.
  - destruct (k =? f) eqn:E; simpl.
    + now rewrite String.eqb_refl.
    + now rewrite E.
Qed.

Lemma validateToolArgs_bag (args : JS.Value) (schema : Schema) (toolName : string)
    (bag : list (string * JS.Value)) :
  validateToolArgs args schema toolName = Return (JS.Object bag) ->
  bag = validated (fold_left (validate_entry args) schema (mkCollected [] [] [])).
Proof.
  unfold validateToolArgs.
  destruct (negb (JS.truthy args) || negb (JS.typeof args =? "object")); [discriminate|].
  destruct ((0 <? _)%nat || (0 <? _)%nat); [discriminate|].
  now intros [= <-].
Qed.

Lemma validated_keeps (args : JS.Value) (field : string) (schema : Schema)
    (c : Collected) :
  JS.lookup field (validated c) = JS.get args field ->
  JS.lookup field (validated (fold_left (validate_entry args) schema c))
  = JS.get args field.
Proof.
  revert c. induction schema as [|[f t] rest IH]; intros c Hc; simpl; [exact Hc|].
  apply IH. unfold validate_entry.
  destruct (JS.is_nullish (JS.get args f)).
  - destruct (negb (endsWith_qmark t)); exact Hc.
  - destruct (negb (JS.typeof (JS.get args f) =? _)); [exact Hc|]. simpl.
    destruct (String.eqb_spec f field) as [->|Hne].
    + apply lookup_assign_same.
    + now rewrite lookup_assign_other.
Qed.

Lemma validated_holds (args : JS.Value) (field expectedType : string)
    (schema : Schema) (c : Collected) :
  In (field, expectedType) schema ->
  JS.is_nullish (JS.get args field) = false ->
  JS.typeof (JS.get args field) = expected_base expectedType ->
  JS.lookup field (validated (fold_left (validate_entry args) schema c))
  = JS.get args field.
Proof.
  intros Hin Hn Ht. revert c.
  induction schema as [|e rest IH]; intros c; [contradiction|].
  destruct Hin as [-> | Hin]; [|now apply IH].
  simpl. apply validated_keeps. unfold validate_entry.
  unfold expected_base in Ht. rewrite Hn, Ht, String.eqb_refl. simpl.
  apply lookup_assign_same.
Qed.

(** After a successful validation a field that the schema requires as a
    string holds the string of the raw bag. *)
Lemma validated_required_string (args v : JS.Value) (schema : Schema)
    (toolName field : string) :
  validateToolArgs args schema toolName = Return v ->
  In (field, "string") schema ->
  exists s, JS.get args field = JS.Str s /\ JS.get v field = JS.Str s.
Proof.
  intros Hv Hin.
  assert (Hr : record_shaped args).
  { unfold validateToolArgs in Hv. unfold record_shaped.
    destruct (JS.truthy args); [|discriminate].
    destruct (String.eqb_spec (JS.typeof args) "object"); [auto | discriminate]. }
  destruct (@validateToolArgs_record args schema toolName Hr)
    as [(Hm & Hw & bag & Hb) | (_ & Ht)]; [|congruence].
  assert (Hn : JS.is_nullish (JS.get args field) = false).
  { destruct (JS.is_nullish (JS.get args field)) eqn:N; [|reflexivity].
    assert (In field (missing_fields args schema)) as Hf; [|now rewrite Hm in Hf].
    unfold missing_fields. apply in_map_iff. exists (field, "string").
    split; [reflexivity|]. apply filter_In. split; [exact Hin|].
    simpl fst. simpl snd. now rewrite N. }
  assert (Ht : JS.typeof (JS.get args field) = "string").
  { destruct (String.eqb_spec (JS.typeof (JS.get args field)) "string") as [E|E];
      [exact E|].
    assert (In (field, "string", JS.typeof (JS.get args field))
               (wrong_fields args schema)) as Hf; [|now rewrite Hw in Hf].
    unfold wrong_fields.
    apply in_map_iff. exists (field, "string"). split; [reflexivity|].
    apply filter_In. split; [exact Hin|].
    simpl fst. simpl snd. rewrite Hn.
    apply String.eqb_neq in E. change (expected_base "string") with "string".
    now rewrite E. }
  rewrite Hb in Hv. injection Hv as <-.
  rewrite (validateToolArgs_bag _ _ _ Hb). simpl JS.get at 2.
  rewrite (@validated_holds args field "string" schema (mkCollected [] [] []) Hin Hn Ht).
  destruct (JS.get args field); try discriminate. now exists s.
Qed.

Section HandlerProperties.

Context {R : Runtime}.

Implicit Types (client : FizzyClient) (w : World).

Lemma bind_lift_return {A B} (a : A) (k : A -> M B) w :
  bind (lift (Return a)) k w = k a w.
Proof. reflexivity. Qed.

(** The handler's branch for a tool: the conditions on the tool name decide. *)
Ltac enter_tool_branch :=
  unfold tool_result; cbn [String.eqb Ascii.eqb Bool.eqb].

(** A tool whose arguments fail validation never reaches the client. *)
Lemma tool_result_validation_failure client (t : Tool) (args : JS.Value) w message :
  In t TOOLS ->
  properties (inputSchema t) <> [] ->
  validateToolArgs args (declared_schema t) (name t) = Throw message ->
  tool_result client (name t) args w = (Throw message, w).
Proof.
  intros Hin Hp Hv. simpl in Hin.
  repeat (destruct Hin as [<- | Hin]); try contradiction;
    try (exfalso; apply Hp; reflexivity);
    match type of Hv with
    | validateToolArgs _ (declared_schema ?tool) (name ?tool) = _ =>
        let s := eval vm_compute in (declared_schema tool) in
        let n := eval vm_compute in (name tool) in
        change (validateToolArgs args s n = Throw message) in Hv;
        change (tool_result client n args w = (Throw message, w))
    end;
    enter_tool_branch; unfold bind at 1; unfold lift at 1; rewrite Hv; reflexivity.
Qed.

Lemma callTool_validation_failure client (t : Tool) (args : JS.Value) w message :
  In t TOOLS ->
  properties (inputSchema t) <> [] ->
  validateToolArgs args (declared_schema t) (name t) = Throw message ->
  callTool client (name t) args w = (mkToolResponse ("Error: " ++ message) true, w).
Proof.
  intros Hin Hp Hv. unfold callTool.
  now rewrite (@tool_result_validation_failure client t args w message Hin Hp Hv).
Qed.

(** C3: for a tool of [TOOLS] that declares arguments, validation of a
    record-shaped bag either returns, or throws one error whose message lists
    every missing required field and every present field of the wrong type
    with its expected and its actual type; and a call whose validation throws
    answers with that error and leaves the world as it was: no request. *)
Theorem validation_reports_all_violations client (t : Tool) (args : JS.Value) w :
  In t TOOLS ->
  properties (inputSchema t) <> [] ->
  let schema := declared_schema t in
  let miss := missing_fields args schema in
  let wrong := wrong_fields args schema in
  (forall message,
     validateToolArgs args schema (name t) = Throw message ->
     callTool client (name t) args w = (mkToolResponse ("Error: " ++ message) true, w))
  /\ (record_shaped args ->
      (miss = [] /\ wrong = []
       /\ exists bag, validateToolArgs args schema (name t) = Return (JS.Object bag))
      \/ ((miss <> [] \/ wrong <> [])
          /\ validateToolArgs args schema (name t)
             = Throw (violations_message (name t) miss wrong))).
Proof.
  intros Hin Hp schema miss wrong. split.
  - intros message Hv. now apply callTool_validation_failure.
  - intros Hr. exact (@validateToolArgs_record args schema (name t) Hr).
Qed.

End HandlerProperties.

(** ** [null] and absent fields *)

Lemma lookup_remove_field (f g : string) (props : list (string * JS.Value)) :
  JS.lookup g (remove_field f props)
  = if f =? g then JS.Undefined else JS.lookup g props.
Proof.
  induction props as [|[k v] rest IH]; simpl.
  - now destruct (f =? g).
  - destruct (k =? f) eqn:Ekf; simpl.
    + apply String.eqb_eq in Ekf. subst k. rewrite IH.
      destruct (f =? g); reflexivity.
    + destruct (k =? g) eqn:Ekg.
      * apply String.eqb_eq in Ekg. subst k.
        rewrite String.eqb_sym in Ekf. now rewrite Ekf.
      * exact IH.
Qed.

(** Two bags that differ only where both hold [null] or nothing are
    validated alike. *)
Lemma validate_entry_nullish (a1 a2 : JS.Value) (c : Collected) (e : string * string) :
  (JS.get a1 (fst e) = JS.get a2 (fst e)
   \/ (JS.is_nullish (JS.get a1 (fst e)) = true
       /\ JS.is_nullish (JS.get a2 (fst e)) = true)) ->
  validate_entry a1 c e = validate_entry a2 c e.
Proof.
  destruct e as [field expectedType]. simpl. unfold validate_entry.
  intros [-> | [N1 N2]]; [reflexivity | now rewrite N1, N2].
Qed.

Lemma validate_entries_nullish (a1 a2 : JS.Value) (schema : Schema) (c : Collected) :
  (forall f, JS.get a1 f = JS.get a2 f
             \/ (JS.is_nullish (JS.get a1 f) = true
                 /\ JS.is_nullish (JS.get a2 f) = true)) ->
  fold_left (validate_entry a1) schema c = fold_left (validate_entry a2) schema c.
Proof.
  intros H. revert c. induction schema as [|e rest IH]; intros c; simpl.
  - reflexivity.
  - rewrite (validate_entry_nullish a1 a2 c e (H (fst e))). apply IH.
Qed.

(** A field that [args] leaves [null] or absent never enters the validated bag. *)
Lemma validated_skips_nullish (args : JS.Value) (field : string)
    (schema : Schema) (c : Collected) :
  JS.is_nullish (JS.get args field) = true ->
  JS.lookup field (validated c) = JS.Undefined ->
  JS.lookup field (validated (fold_left (validate_entry args) schema c)) = JS.Undefined.
Proof.
  intros N. revert c. induction schema as [|[f t] rest IH]; intros c Hc; simpl.
  - exact Hc.
  - apply IH. unfold validate_entry.
    destruct (JS.is_nullish (JS.get args f)) eqn:Nf.
    + destruct (negb (endsWith_qmark t)); exact Hc.
    + destruct (negb (JS.typeof (JS.get args f) =? _)); [exact Hc|].
      simpl. rewrite lookup_assign_other; [exact Hc|].
      intros ->. congruence.
Qed.

(** [null] against absent under the own-property reading of [JS.get]: the
    general step behind the statement for the schemas of the tools, whose
    field names are not inherited ones. *)
Lemma null_field_own_lookup (args : JS.Value) (schema : Schema)
    (toolName field : string) :
  JS.get args field = JS.Null ->
  (forall props, args = JS.Object props ->
     validateToolArgs args schema toolName
     = validateToolArgs (JS.Object (remove_field field props)) schema toolName)
  /\ (forall expectedType,
        In (field, expectedType) schema ->
        endsWith_qmark expectedType = false ->
        In field (missing_fields args schema)
        /\ ~ In field (map wrong_field_name (wrong_fields args schema))
        /\ (record_shaped args ->
            validateToolArgs args schema toolName
            = Throw (violations_message toolName (missing_fields args schema)
                       (wrong_fields args schema))))
  /\ ((forall expectedType,
         In (field, expectedType) schema -> endsWith_qmark expectedType = true) ->
      ~ In field (missing_fields args schema)
      /\ ~ In field (map wrong_field_name (wrong_fields args schema))
      /\ forall bag,
           validateToolArgs args schema toolName = Return (JS.Object bag) ->
           JS.lookup field bag = JS.Undefined).
Proof.
  intros Hnull.
  assert (Hwrong : ~ In field (map wrong_field_name (wrong_fields args schema))).
  { unfold wrong_fields. rewrite map_map. simpl. intros Hin.
    apply in_map_iff in Hin. destruct Hin as (e & Hf & He).
    unfold wrong_field_name in Hf. simpl in Hf.
    apply filter_In in He. destruct He as [_ He].
    rewrite Hf, Hnull in He. discriminate. }
  split; [|split].
  - intros props ->. unfold validateToolArgs. simpl JS.truthy. simpl JS.typeof.
    cbv iota. simpl negb. cbv iota.
    rewrite (validate_entries_nullish (JS.Object props)
               (JS.Object (remove_field field props)) schema (mkCollected [] [] [])).
    + reflexivity.
    + intros f. simpl. rewrite lookup_remove_field.
      destruct (field =? f) eqn:E.
      * apply String.eqb_eq in E. subst f. right. simpl in Hnull. now rewrite Hnull.
      * now left.
  - intros expectedType Hin Hreq.
    assert (Hmiss : In field (missing_fields args schema)).
    { unfold missing_fields. apply in_map_iff. exists (field, expectedType).
      split; [reflexivity|]. apply filter_In. split; [exact Hin|].
      simpl. now rewrite Hreq, Hnull. }
    split; [exact Hmiss|]. split; [exact Hwrong|].
    intros Hr.
    destruct (@validateToolArgs_record args schema toolName Hr)
      as [(Hm & _) | (_ & Hv)]; [|exact Hv].
    rewrite Hm in Hmiss. contradiction.
  - intros Hopt. split; [|split; [exact Hwrong|]].
    + unfold missing_fields. intros Hin.
      apply in_map_iff in Hin. destruct Hin as ([f t] & Hf & He).
      simpl in Hf. subst f.
      apply filter_In in He. destruct He as [Hin He].
      simpl in He. rewrite (Hopt t Hin) in He. discriminate.
    + intros bag Hv. rewrite (validateToolArgs_bag _ _ _ Hv).
      apply validated_skips_nullish; [now rewrite Hnull | reflexivity].
Qed.

Lemma tool_schema_functional (t : Tool) (field t1 t2 : string) :
  In t TOOLS ->
  In (field, t1) (declared_schema t) ->
  In (field, t2) (declared_schema t) ->
  t1 = t2.
Proof.
  intros Hin H1 H2. simpl in Hin.
  repeat (destruct Hin as [<- | Hin];
          [cbv in H1, H2; intuition congruence|]).
  contradiction.
Qed.

(** C10: [null] counts as absent, for every tool of [TOOLS] and every field
    of its schema.  A bag that binds the field to [null] is validated exactly
    like the bag without it; a required field bound to [null] is listed as
    missing and not as mistyped; an optional field bound to [null] is
    neither, and is left out of the validated bag. *)
Theorem null_field_is_absent (t : Tool) (args : JS.Value)
    (field expectedType : string) :
  In t TOOLS ->
  In (field, expectedType) (declared_schema t) ->
  JS.get args field = JS.Null ->
  let schema := declared_schema t in
  (forall props, args = JS.Object props ->
     validateToolArgs args schema (name t)
     = validateToolArgs (JS.Object (remove_field field props)) schema (name t))
  /\ (endsWith_qmark expectedType = false ->
      In field (missing_fields args schema)
      /\ ~ In field (map wrong_field_name (wrong_fields args schema))
      /\ (record_shaped args ->
          validateToolArgs args schema (name t)
          = Throw (violations_message (name t) (missing_fields args schema)
                     (wrong_fields args schema))))
  /\ (endsWith_qmark expectedType = true ->
      ~ In field (missing_fields args schema)
      /\ ~ In field (map wrong_field_name (wrong_fields args schema))
      /\ forall bag,
           validateToolArgs args schema (name t) = Return (JS.Object bag) ->
           JS.lookup field bag = JS.Undefined).
Proof.
  intros Hin Hfield Hnull schema.
  destruct (@null_field_own_lookup args schema (name t) field Hnull)
    as (Habsent & Hrequired & Hoptional).
  split; [exact Habsent|]. split.
  - intros Hreq. exact (Hrequired expectedType Hfield Hreq).
  - intros Hopt. apply Hoptional. intros expectedType' Hin'.
    now rewrite (@tool_schema_functional t field expectedType' expectedType Hin Hin' Hfield).
Qed.

Lemma null_field_is_absent_witness :
  In create_board_tool TOOLS
  /\ In ("description", "string?") (declared_schema create_board_tool)
  /\ JS.get (JS.Object [("name", JS.Str "Roadmap"); ("description", JS.Null)])
       "description" = JS.Null
  /\ validateToolArgs
       (JS.Object [("name", JS.Str "Roadmap"); ("description", JS.Null)])
       [("name", "string"); ("description", "string?")] "fizzy_create_board"
     = validateToolArgs (JS.Object [("name", JS.Str "Roadmap")])
         [("name", "string"); ("description", "string?")] "fizzy_create_board"
  /\ ~ In "description"
        (missing_fields
           (JS.Object [("name", JS.Str "Roadmap"); ("description", JS.Null)])
           [("name", "string"); ("description", "string?")]).
Proof.
  assert (Hin : In create_board_tool TOOLS) by (simpl; tauto).
  assert (Hfield : In ("description", "string?") (declared_schema create_board_tool))
    by (simpl; tauto).
  pose proof (@null_field_is_absent create_board_tool
                (JS.Object [("name", JS.Str "Roadmap"); ("description", JS.Null)])
                "description" "string?" Hin Hfield eq_refl)
    as (Habsent & _ & Hoptional).
  split; [exact Hin|]. split; [exact Hfield|]. split; [reflexivity|]. split.
  - exact (Habsent _ eq_refl).
  - exact (proj1 (Hoptional eq_refl)).
Defined.

(** ** Identifiers *)

Lemma all_chars_false (p : ascii -> bool) (s : string) :
  all_chars p s = false <-> exists c, In c (list_ascii_of_string s) /\ p c = false.
Proof.
  induction s as [|a s IH]; simpl.
  - split; [discriminate | intros (c & [] & _)].
  - rewrite andb_false_iff, IH. split.
    + intros [Ha | (c & Hc & Hp)]; [exists a | exists c]; auto.
    + intros (c & [<- | Hc] & Hp); [now left | right; now exists c].
Qed.

(** The pattern refuses exactly the identifiers the specification calls
    invalid. *)
Lemma idPattern_test_false (id : string) :
  idPattern_test id = false <-> invalid_identifier id.
Proof.
  unfold idPattern_test, invalid_identifier.
  rewrite andb_false_iff, negb_false_iff, String.eqb_eq, all_chars_false.
  reflexivity.
Qed.

Lemma validateId_valid (id paramName : string) :
  idPattern_test id = true -> validateId id paramName = Return tt.
Proof.
  intros H. unfold validateId. rewrite H. simpl.
  unfold idPattern_test in H. apply andb_prop in H. destruct H as [-> _].
  reflexivity.
Qed.

Lemma validateId_invalid (id paramName : string) :
  invalid_identifier id ->
  exists message,
    validateId id paramName = Throw message
    /\ InvalidIdentifier paramName id message.
Proof.
  intros H. apply idPattern_test_false in H. unfold validateId.
  cbn [JS.truthy JS.typeof String.eqb Ascii.eqb Bool.eqb negb orb].
  rewrite orb_false_r.
  destruct (id =? EmptyString) eqn:E; cbn [negb].
  - apply String.eqb_eq in E. subst id. eexists. split; [reflexivity|]. split.
    + exists EmptyString, ": must be a non-empty string".
      change (EmptyString ++ ?x) with x. now rewrite append_assoc.
    + eexists EmptyString, _. reflexivity.
  - rewrite H. cbn [negb]. eexists. split; [reflexivity|]. split.
    + eexists EmptyString, _. change (EmptyString ++ ?x) with x.
      rewrite append_assoc. reflexivity.
    + exists ("Invalid " ++ paramName ++ ": " ++ dquote),
        (dquote ++ " contains invalid characters. Only alphanumeric characters are allowed.").
      now rewrite !append_assoc.
Qed.

Section ClientProperties.

Context {R : Runtime}.

Implicit Types (client : FizzyClient) (w : World).

Lemma rejects_bind {B} (id paramName : string) (k : unit -> M B) :
  invalid_identifier id ->
  rejects_identifier (bind (lift (validateId id paramName)) k) paramName id.
Proof.
  intros H w. destruct (validateId_invalid paramName H) as (message & E & I).
  exists message. rewrite E. split; [reflexivity | exact I].
Qed.

(** The guard in the client: every remote call that places a board or card
    identifier in its path, and the column move for its column identifier,
    throws for an invalid identifier before it touches the world. *)
Lemma client_rejects_invalid_identifier client (id : string) :
  invalid_identifier id ->
  rejects_identifier (getBoard client id) "boardId" id
  /\ (forall title description,
        rejects_identifier (createCard client id title description) "boardId" id)
  /\ rejects_identifier (getCard client id) "cardId" id
  /\ (forall updates, rejects_identifier (updateCard client id updates) "cardId" id)
  /\ (forall columnId,
        rejects_identifier (moveCardToColumn client id columnId) "cardId" id)
  /\ (forall cardId,
        idPattern_test cardId = true ->
        rejects_identifier (moveCardToColumn client cardId id) "columnId" id)
  /\ rejects_identifier (moveCardToDone client id) "cardId" id
  /\ rejects_identifier (moveCardToNotNow client id) "cardId" id
  /\ rejects_identifier (listColumns client id) "boardId" id
  /\ rejects_identifier (listComments client id) "cardId" id
  /\ (forall body, rejects_identifier (addComment client id body) "cardId" id)
  /\ (forall tagTitle, rejects_identifier (addTag client id tagTitle) "cardId" id)
  /\ (forall tagTitle, rejects_identifier (removeTag client id tagTitle) "cardId" id).
Proof.
  intros H.
  repeat match goal with |- _ /\ _ => split end;
    intros; try (apply rejects_bind; exact H).
  match goal with
  | Hc : idPattern_test ?c = true |- _ =>
      unfold moveCardToColumn; intros w;
      unfold bind at 1; unfold lift at 1;
      rewrite (@validateId_valid c "cardId" Hc)
  end.
  now apply rejects_bind.
Qed.

End ClientProperties.


(** The identifiers of the specification, through the handler: an error
    answer, and no request. *)
Example callTool_rejects_injection :
  callTool sample_client "fizzy_get_card"
    (JS.Object [("card_id", JS.Str "id;drop")]) (sample_world [])
  = (mkToolResponse
       ("Error: Invalid cardId: " ++ dquote ++ "id;drop" ++ dquote
        ++ " contains invalid characters. Only alphanumeric characters are allowed.")
       true,
     sample_world []).
Proof. reflexivity. Qed.

(** ** From validated arguments to the client *)

(** What validation returns is an object: the bag the loop has filled. *)
Lemma validateToolArgs_returns_object (args v : JS.Value) (schema : Schema)
    (toolName : string) :
  validateToolArgs args schema toolName = Return v ->
  v = JS.Object (validated (fold_left (validate_entry args) schema (mkCollected [] [] []))).
Proof.
  unfold validateToolArgs.
  destruct (negb (JS.truthy args) || negb (JS.typeof args =? "object")); [discriminate|].
  cbv zeta.
  destruct ((0 <? _)%nat || (0 <? _)%nat); [discriminate|].
  now intros [= <-].
Qed.

(** What the handler reads from a validated bag is what the raw bag holds. *)
Lemma validated_view (args v : JS.Value) (schema : Schema) (toolName : string) :
  validateToolArgs args schema toolName = Return v ->
  (forall f, In (f, "string") schema ->
     the_string v f = the_string args f
     /\ JS.get args f = JS.Str (the_string args f))
  /\ (forall f, In (f, "string?") schema ->
        the_optional v f = the_optional args f).
Proof.
  intros Hv. split.
  - intros f Hin.
    destruct (validated_required_string _ _ _ _ Hv Hin) as (s & Ha & Hb).
    unfold the_string. rewrite Ha, Hb. now split.
  - intros f Hin.
    pose proof (validateToolArgs_returns_object _ _ _ Hv) as Hobj.
    remember (validated (fold_left (validate_entry args) schema (mkCollected [] [] [])))
      as bag eqn:Hbag.
    subst v.
    assert (Hr : record_shaped args).
    { unfold validateToolArgs in Hv. unfold record_shaped.
      destruct (JS.truthy args); [|discriminate].
      destruct (String.eqb_spec (JS.typeof args) "object"); [auto | discriminate]. }
    destruct (@validateToolArgs_record args schema toolName Hr)
      as [(_ & Hw & _) | (_ & Ht)]; [|congruence].
    unfold the_optional. simpl JS.get at 1. rewrite Hbag.
    destruct (JS.is_nullish (JS.get args f)) eqn:N.
    + rewrite validated_skips_nullish; trivial.
      destruct (JS.get args f); try discriminate; reflexivity.
    + assert (Ht : JS.typeof (JS.get args f) = "string").
      { destruct (String.eqb_spec (JS.typeof (JS.get args f)) "string") as [E|E];
          [exact E|].
        assert (In (f, "string", JS.typeof (JS.get args f))
                   (wrong_fields args schema)) as Hf; [|now rewrite Hw in Hf].
        unfold wrong_fields.
        apply in_map_iff. exists (f, "string?"). split; [reflexivity|].
        apply filter_In. split; [exact Hin|].
        simpl fst. simpl snd. rewrite N.
        apply String.eqb_neq in E. change (expected_base "string?") with "string".
        now rewrite E. }
      now rewrite (@validated_holds args f "string?" schema (mkCollected [] [] [])
                     Hin N Ht).
Qed.

(** ** Identifiers, through the handler *)

Section IdentifierGuard.

Context {R : Runtime}.

Implicit Types (client : FizzyClient) (w : World).

Lemma guard_throws {B} (id paramName message : string) (k : unit -> M B) w :
  validateId id paramName = Throw message ->
  bind (lift (validateId id paramName)) k w = (Throw message, w).
Proof. intros E. unfold bind, lift. now rewrite E. Qed.

Lemma throws_bind {A B} (m : M A) (k : A -> M B) (message : string) w w' :
  m w = (Throw message, w') -> bind m k w = (Throw message, w').
Proof. intros E. unfold bind. now rewrite E. Qed.

(** Entering the branch of a tool whose arguments validate. *)
Ltac open_validated Hv :=
  unfold tool_result; cbn [String.eqb Ascii.eqb Bool.eqb];
  unfold bind at 1; unfold lift at 1; rewrite Hv.

(** The answer to a call whose [try] block throws. *)
Lemma callTool_throws client (toolName message : string) (args : JS.Value) w w' :
  tool_result client toolName args w = (Throw message, w') ->
  callTool client toolName args w = (mkToolResponse ("Error: " ++ message) true, w').
Proof. intros E. unfold callTool. now rewrite E. Qed.

Ltac refuse field paramName :=
  intros args v w Hv Hinv;
  destruct (validated_view _ _ _ Hv) as [Hs _];
  destruct (Hs field) as [E _]; [simpl; tauto|];
  destruct (@validateId_invalid (the_string args field) paramName Hinv)
    as (message & Ev & I);
  exists message; split; [|exact I];
  apply callTool_throws; open_validated Hv; rewrite E.

(** C4: every tool that puts an identifier of its arguments into the path of
    its request refuses a value that is empty or has a character outside the
    ASCII letters and digits.  Once the arguments have passed
    [validateToolArgs], the handler answers with an error that names the
    parameter ([boardId], [cardId]) and the value, and the world is as before
    the call: nothing was sent.  The same holds for the column of a move that
    is neither ["done"] nor ["not_now"], under the name [columnId]. *)
Theorem invalid_identifier_rejected client :
  tool_rejects_identifier client "fizzy_get_board"
    [("board_id", "string")] "board_id" "boardId"
  /\ tool_rejects_identifier client "fizzy_get_card"
       [("card_id", "string")] "card_id" "cardId"
  /\ tool_rejects_identifier client "fizzy_create_card"
       [("board_id", "string"); ("title", "string"); ("description", "string?")]
       "board_id" "boardId"
  /\ tool_rejects_identifier client "fizzy_update_card"
       [("card_id", "string"); ("title", "string?"); ("description", "string?")]
       "card_id" "cardId"
  /\ tool_rejects_identifier client "fizzy_move_card"
       [("card_id", "string"); ("column", "string")] "card_id" "cardId"
  /\ tool_rejects_identifier client "fizzy_list_columns"
       [("board_id", "string")] "board_id" "boardId"
  /\ tool_rejects_identifier client "fizzy_add_comment"
       [("card_id", "string"); ("body", "string")] "card_id" "cardId"
  /\ tool_rejects_identifier client "fizzy_list_comments"
       [("card_id", "string")] "card_id" "cardId"
  /\ tool_rejects_identifier client "fizzy_add_tag"
       [("card_id", "string"); ("tag", "string")] "card_id" "cardId"
  /\ tool_rejects_identifier client "fizzy_remove_tag"
       [("card_id", "string"); ("tag", "string")] "card_id" "cardId"
  /\ (forall args v w,
        validateToolArgs args [("card_id", "string"); ("column", "string")]
          "fizzy_move_card" = Return v ->
        idPattern_test (the_string args "card_id") = true ->
        the_string args "column" <> "done" ->
        the_string args "column" <> "not_now" ->
        invalid_identifier (the_string args "column") ->
        exists message,
          callTool client "fizzy_move_card" args w
          = (mkToolResponse ("Error: " ++ message) true, w)
          /\ InvalidIdentifier "columnId" (the_string args "column") message).
Proof.
  repeat match goal with |- _ /\ _ => split end.
  - refuse "board_id" "boardId". now apply guard_throws.
  - refuse "card_id" "cardId". now apply guard_throws.
  - refuse "board_id" "boardId". now apply guard_throws.
  - refuse "card_id" "cardId". now apply guard_throws.
  - refuse "card_id" "cardId". apply throws_bind.
    destruct (the_string v "column" =? "done");
      [|destruct (the_string v "column" =? "not_now")];
      now apply guard_throws.
  - refuse "board_id" "boardId". now apply guard_throws.
  - refuse "card_id" "cardId". now apply guard_throws.
  - refuse "card_id" "cardId". now apply guard_throws.
  - refuse "card_id" "cardId". apply throws_bind. now apply guard_throws.
  - refuse "card_id" "cardId". apply throws_bind. now apply guard_throws.
  - intros args v w Hv Hid Hd Hn Hinv.
    destruct (validated_view _ _ _ Hv) as [Hs _].
    destruct (Hs "card_id") as [E _]; [simpl; tauto|].
    destruct (Hs "column") as [Ec _]; [simpl; tauto|].
    destruct (@validateId_invalid (the_string args "column") "columnId" Hinv)
      as (message & Ev & I).
    exists message. split; [|exact I].
    apply callTool_throws. open_validated Hv. rewrite E, Ec.
    apply String.eqb_neq in Hd, Hn. rewrite Hd, Hn.
    apply throws_bind. unfold moveCardToColumn.
    rewrite (@validateId_valid (the_string args "card_id") "cardId" Hid).
    rewrite bind_lift_return. now apply guard_throws.
Qed.

End IdentifierGuard.

Lemma invalid_identifier_rejected_witness :
  validateToolArgs (JS.Object [("card_id", JS.Str "abc/123")])
    [("card_id", "string")] "fizzy_get_card"
  = Return (JS.Object [("card_id", JS.Str "abc/123")])
  /\ invalid_identifier "abc/123"
  /\ exists message,
       callTool sample_client "fizzy_get_card"
         (JS.Object [("card_id", JS.Str "abc/123")]) (sample_world [Return empty_ok])
       = (mkToolResponse ("Error: " ++ message) true, sample_world [Return empty_ok])
       /\ InvalidIdentifier "cardId" "abc/123" message.
Proof.
  assert (H : invalid_identifier "abc/123").
  { right. exists "/"%char. split; [simpl; tauto | reflexivity]. }
  split; [reflexivity|]. split; [exact H|].
  exact (proj1 (proj2 (@invalid_identifier_rejected sample_runtime sample_client))
           (JS.Object [("card_id", JS.Str "abc/123")])
           (JS.Object [("card_id", JS.Str "abc/123")])
           (sample_world [Return empty_ok]) eq_refl H).
Defined.

(** ** Moving a card, tagging a card *)

Section DispatchProperties.

Context {R : Runtime}.

Implicit Types (client : FizzyClient) (w : World).

Lemma snd_bind_ret {A B} (m : M A) (f : A -> B) w :
  snd (bind m (fun a => ret (f a)) w) = snd (m w).
Proof. unfold bind, ret. now destruct (m w) as [[a|message] w']. Qed.

Lemma snd_callTool client (name : string) (args : JS.Value) w :
  snd (callTool client name args w) = snd (tool_result client name args w).
Proof.
  unfold callTool. now destruct (tool_result client name args w) as [[v|message] w'].
Qed.

(** A call that validates its identifier and then sends one request. *)
Lemma validated_request_requests client (id paramName path : string)
    (options : Options) w :
  idPattern_test id = true ->
  requests (trace (snd (bind (lift (validateId id paramName))
                          (fun _ => bind (request client path options)
                                         (fun _ => ret tt)) w)))
  = (requests (trace w) ++ [(request_url client path, request_init client options)])%list.
Proof.
  intros H. rewrite (@validateId_valid id paramName H), bind_lift_return.
  rewrite (snd_bind_ret (request client path options) (fun _ => tt)).
  apply request_requests.
Qed.

(** The validated bag of a move. *)
Lemma validate_move_card (args : JS.Value) (card_id column : string) :
  record_shaped args ->
  JS.get args "card_id" = JS.Str card_id ->
  JS.get args "column" = JS.Str column ->
  validateToolArgs args [("card_id", "string"); ("column", "string")] "fizzy_move_card"
  = Return (JS.Object [("card_id", JS.Str card_id); ("column", JS.Str column)]).
Proof.
  intros [Ht Ho] Hc Hk. unfold validateToolArgs. rewrite Ht, Ho.
  cbn [fold_left]. unfold validate_entry. rewrite Hc, Hk. reflexivity.
Qed.

(** C2 (amended): the move of a card whose [card_id] passes the identifier
    pattern branches on the exact value of [column].  ["done"] sends one POST
    to [/cards/{card_id}/closure] and ["not_now"] one POST to
    [/cards/{card_id}/not_now], both without a body; any other value that
    passes the identifier pattern sends one PATCH to
    [/cards/{card_id}/column] with the body [{column_id: column}]; any other
    value that does not pass it is refused with an invalid-identifier error
    for [columnId], and nothing is sent. *)
Theorem move_card_dispatch client (args : JS.Value) (card_id column : string) w :
  record_shaped args ->
  JS.get args "card_id" = JS.Str card_id ->
  JS.get args "column" = JS.Str column ->
  idPattern_test card_id = true ->
  let sent := requests (trace (snd (callTool client "fizzy_move_card" args w))) in
  let one (verb path : string) (payload : option string) :=
    (requests (trace w)
     ++ [(request_url client ("/cards/" ++ card_id ++ path),
          mkInit (Some verb) (request_headers client) payload)])%list in
  (column = "done" -> sent = one "POST" "/closure" None)
  /\ (column = "not_now" -> sent = one "POST" "/not_now" None)
  /\ (column <> "done" -> column <> "not_now" ->
      idPattern_test column = true ->
      sent = one "PATCH" "/column"
               (Some (JSON_stringify (JS.Object [("column_id", JS.Str column)]))))
  /\ (column <> "done" -> column <> "not_now" ->
      idPattern_test column = false ->
      exists message,
        callTool client "fizzy_move_card" args w
        = (mkToolResponse ("Error: " ++ message) true, w)
        /\ InvalidIdentifier "columnId" column message).
Proof.
  intros Hr Hc Hk Hid sent one.
  assert (Run : tool_result client "fizzy_move_card" args w
    = bind (if column =? "done" then moveCardToDone client card_id
            else if column =? "not_now" then moveCardToNotNow client card_id
            else moveCardToColumn client card_id column)
        (fun _ => ret (JS.Object [("success", JS.Bool true);
                                  ("message", JS.Str ("Card moved to " ++ column))])) w).
  { unfold tool_result. cbn [String.eqb Ascii.eqb Bool.eqb].
    unfold bind at 1. unfold lift at 1.
    rewrite (validate_move_card Hr Hc Hk). reflexivity. }
  assert (Sent : sent
    = requests (trace (snd ((if column =? "done" then moveCardToDone client card_id
                             else if column =? "not_now" then moveCardToNotNow client card_id
                             else moveCardToColumn client card_id column) w)))).
  { unfold sent. rewrite snd_callTool, Run.
    now rewrite (snd_bind_ret _ (fun _ => JS.Object _)). }
  repeat match goal with |- _ /\ _ => split end.
  - intros ->. rewrite Sent. cbn [String.eqb Ascii.eqb Bool.eqb].
    unfold moveCardToDone. now rewrite validated_request_requests.
  - intros ->. rewrite Sent. cbn [String.eqb Ascii.eqb Bool.eqb].
    unfold moveCardToNotNow. now rewrite validated_request_requests.
  - intros Hd Hn Hcol. rewrite Sent.
    apply String.eqb_neq in Hd, Hn. rewrite Hd, Hn.
    unfold moveCardToColumn.
    rewrite (@validateId_valid card_id "cardId" Hid), bind_lift_return.
    now rewrite validated_request_requests.
  - intros Hd Hn Hcol.
    apply idPattern_test_false in Hcol.
    destruct (@validateId_invalid column "columnId" Hcol) as (message & E & I).
    exists message. split; [|exact I].
    unfold callTool. rewrite Run.
    apply String.eqb_neq in Hd, Hn. rewrite Hd, Hn.
    unfold moveCardToColumn. unfold bind at 1. unfold bind at 1. unfold lift at 1.
    rewrite (@validateId_valid card_id "cardId" Hid).
    unfold bind at 1. unfold lift at 1. rewrite E. reflexivity.
Qed.

(** C8: adding and removing a tag are the same remote call.  The two client
    functions agree on every input and every world; with a card identifier
    that passes the pattern each sends the one request
    [POST /cards/{cardId}/taggings] with the body [{tag_title: tagTitle}];
    the two tools leave the same world behind; and each of the two tools,
    called with arguments that validate and a card identifier that passes the
    pattern, sends exactly that request, built from [card_id] and [tag]. *)
Theorem addTag_removeTag_same_call client (cardId tagTitle : string) w :
  addTag client cardId tagTitle w = removeTag client cardId tagTitle w
  /\ (idPattern_test cardId = true ->
      requests (trace (snd (addTag client cardId tagTitle w)))
      = (requests (trace w)
         ++ [(request_url client ("/cards/" ++ cardId ++ "/taggings"),
              mkInit (Some "POST") (request_headers client)
                (Some (JSON_stringify (JS.Object [("tag_title", JS.Str tagTitle)]))))])%list)
  /\ (forall args,
        snd (callTool client "fizzy_add_tag" args w)
        = snd (callTool client "fizzy_remove_tag" args w))
  /\ (forall toolName args v,
        toolName = "fizzy_add_tag" \/ toolName = "fizzy_remove_tag" ->
        validateToolArgs args [("card_id", "string"); ("tag", "string")] toolName
        = Return v ->
        idPattern_test (the_string args "card_id") = true ->
        requests (trace (snd (callTool client toolName args w)))
        = (requests (trace w)
           ++ [(request_url client
                  ("/cards/" ++ the_string args "card_id" ++ "/taggings"),
                mkInit (Some "POST") (request_headers client)
                  (Some (JSON_stringify
                           (JS.Object
                              [("tag_title", JS.Str (the_string args "tag"))]))))])%list).
Proof.
  split; [reflexivity|]. split; [|split].
  - intros H. unfold addTag. now rewrite validated_request_requests.
  - intros args. rewrite !snd_callTool.
    unfold tool_result. cbn [String.eqb Ascii.eqb Bool.eqb].
    unfold bind at 1 3. unfold lift at 1 2.
    unfold validateToolArgs.
    destruct (negb (JS.truthy args) || negb (JS.typeof args =? "object")); [reflexivity|].
    cbv zeta.
    destruct ((0 <? _)%nat || (0 <? _)%nat); [reflexivity|].
    rewrite (snd_bind_ret _ (fun _ => JS.Object _)).
    rewrite (snd_bind_ret _ (fun _ => JS.Object _)).
    reflexivity.
  - intros toolName args v Htool Hv Hid.
    destruct (validated_view _ _ _ Hv) as [Hs _].
    destruct (Hs "card_id") as [E _]; [simpl; tauto|].
    destruct (Hs "tag") as [Et _]; [simpl; tauto|].
    rewrite snd_callTool.
    destruct Htool as [-> | ->];
      unfold tool_result; cbn [String.eqb Ascii.eqb Bool.eqb];
      unfold bind at 1; unfold lift at 1; rewrite Hv;
      rewrite (snd_bind_ret _ (fun _ => JS.Object _)), E, Et;
      [unfold addTag | unfold removeTag];
      now rewrite validated_request_requests.
Qed.

End DispatchProperties.

(** C2 as stated fails: a column value that is neither ["done"] nor
    ["not_now"] and does not pass the identifier pattern sends no request. *)
Lemma move_card_column_counterexample :
  ~ exists sent,
      requests (trace (snd (callTool sample_client "fizzy_move_card"
                              (JS.Object [("card_id", JS.Str "42");
                                          ("column", JS.Str "in-progress")])
                              (sample_world [Return empty_ok]))))
      = [sent].
Proof. intros (sent & H). vm_compute in H. discriminate H. Qed.

Lemma move_card_dispatch_witness :
  record_shaped (JS.Object [("card_id", JS.Str "42"); ("column", JS.Str "done")])
  /\ idPattern_test "42" = true
  /\ requests (trace (snd (callTool sample_client "fizzy_move_card"
                             (JS.Object [("card_id", JS.Str "42");
                                         ("column", JS.Str "done")])
                             (sample_world [Return empty_ok]))))
     = [("http://localhost:3737/1/cards/42/closure",
         mkInit (Some "POST")
           [("Accept", "application/json"); ("Content-Type", "application/json");
            ("Authorization", "Bearer secret")]
           None)].
Proof.
  assert (Hr : record_shaped
                 (JS.Object [("card_id", JS.Str "42"); ("column", JS.Str "done")])).
  { split; reflexivity. }
  split; [exact Hr|]. split; [reflexivity|].
  exact (proj1 (@move_card_dispatch sample_runtime sample_client
                  (JS.Object [("card_id", JS.Str "42"); ("column", JS.Str "done")])
                  "42" "done" (sample_world [Return empty_ok])
                  Hr eq_refl eq_refl eq_refl) eq_refl).
Defined.

(** A custom column: one PATCH with the column in the body. *)
Example move_card_to_custom_column :
  requests (trace (snd (callTool sample_client "fizzy_move_card"
                          (JS.Object [("card_id", JS.Str "42");
                                      ("column", JS.Str "c9")])
                          (sample_world [Return empty_ok]))))
  = [("http://localhost:3737/1/cards/42/column",
      mkInit (Some "PATCH")
        [("Accept", "application/json"); ("Content-Type", "application/json");
         ("Authorization", "Bearer secret")]
        (Some ("{" ++ dquote ++ "column_id" ++ dquote ++ ":" ++ dquote ++ "c9"
               ++ dquote ++ "}")))].
Proof. reflexivity. Qed.

Lemma validation_reports_all_violations_witness :
  In move_card_tool TOOLS
  /\ properties (inputSchema move_card_tool) <> []
  /\ callTool sample_client "fizzy_move_card"
       (JS.Object [("card_id", JS.Number 7); ("extra", JS.Str "x")])
       (sample_world [Return empty_ok])
     = (mkToolResponse
          "Error: Tool 'fizzy_move_card' validation failed: Missing: column. Wrong type: card_id (expected string, got number)."
          true,
        sample_world [Return empty_ok]).
Proof.
  assert (Hin : In move_card_tool TOOLS) by (simpl; tauto).
  assert (Hp : properties (inputSchema move_card_tool) <> []) by discriminate.
  split; [exact Hin|]. split; [exact Hp|].
  exact (proj1 (@validation_reports_all_violations sample_runtime sample_client
                  move_card_tool
                  (JS.Object [("card_id", JS.Number 7); ("extra", JS.Str "x")])
                  (sample_world [Return empty_ok]) Hin Hp)
           _ eq_refl).
Defined.

(** ** The tool table *)

(** C7 as stated fails: the table has thirteen entries, not fourteen. *)
Lemma TOOLS_fourteen_counterexample : List.length TOOLS <> 14.
Proof. discriminate. Qed.

(** C7 (amended): [TOOLS] declares exactly thirteen operations (list, get and
    create boards; list, get, create, update and move cards; list columns;
    add and list comments; add and remove tags).  The names are pairwise
    distinct, every description is a non-empty text, every field of every
    schema has the type [string], and the required fields of a schema are
    among its fields, so that each field is either required or optional. *)
Theorem TOOLS_registry :
  List.length TOOLS = 13
  /\ map name TOOLS
     = ["fizzy_list_boards"; "fizzy_get_board"; "fizzy_create_board";
        "fizzy_list_cards"; "fizzy_get_card"; "fizzy_create_card";
        "fizzy_update_card"; "fizzy_move_card"; "fizzy_list_columns";
        "fizzy_add_comment"; "fizzy_list_comments"; "fizzy_add_tag";
        "fizzy_remove_tag"]
  /\ NoDup (map name TOOLS)
  /\ Forall (fun t =>
               description t <> EmptyString
               /\ schema_type (inputSchema t) = "object"
               /\ Forall (fun p => type (snd p) = "string") (properties (inputSchema t))
               /\ NoDup (map fst (properties (inputSchema t)))
               /\ incl (required (inputSchema t)) (map fst (properties (inputSchema t))))
            TOOLS.
Proof.
  split; [reflexivity|]. split; [reflexivity|]. split.
  - apply (NoDup_count_occ' string_dec). intros x Hx.
    simpl in Hx. repeat (destruct Hx as [<- | Hx]; [reflexivity|]). contradiction.
  - unfold TOOLS.
    repeat (apply Forall_cons;
            [ split; [discriminate|]; split; [reflexivity|];
              split; [repeat constructor|];
              split; [apply (NoDup_count_occ' string_dec); intros x Hx; simpl in Hx;
                      repeat (destruct Hx as [<- | Hx]; [reflexivity|]); contradiction
                     | intros x Hx; simpl in Hx |- *; tauto]
            | ]).
    apply Forall_nil.
Qed.

(** The handler checks each tool against the schema the table declares. *)
Example declared_schema_move_card :
  declared_schema move_card_tool = [("card_id", "string"); ("column", "string")].
Proof. reflexivity. Qed.

(** ** The stored base URL *)

(** C9 (amended): the constructor stores the base URL with the one slash
    that ends it removed, and unchanged when it does not end in a slash; the
    stored value ends in a slash exactly when the input ended in two; and
    every request URL is the stored value, a slash, the account and the
    path. *)
Theorem baseUrl_normalized (R : Runtime) (url token accountId : string) :
  let client := new_FizzyClient url token accountId in
  (ends_with_slash url = false -> baseUrl client = url)
  /\ (forall s, url = s ++ "/" -> baseUrl client = s)
  /\ (ends_with_slash (baseUrl client) = true <-> exists s, url = s ++ "//")
  /\ (forall path, request_url client path = baseUrl client ++ "/" ++ accountId ++ path)
  /\ (forall path options (w : World),
        requests (trace (snd (request client path options w)))
        = (requests (trace w)
           ++ [((baseUrl client ++ "/" ++ accountId ++ path)%string,
                request_init client options)])%list).
Proof.
  intros client. simpl.
  split; [apply replace_trailing_slash_keeps|].
  split; [intros s ->; apply replace_trailing_slash_removes|].
  split; [|split].
  - split.
    + intros H. destruct (ends_with_slash url) eqn:E.
      * destruct (ends_with_slash_inv _ E) as (r & ->).
        rewrite replace_trailing_slash_removes in H.
        destruct (ends_with_slash_inv _ H) as (q & ->).
        exists q. now rewrite append_assoc.
      * rewrite (replace_trailing_slash_keeps _ E) in H. congruence.
    + intros (s & ->).
      change (s ++ "//") with (s ++ "/" ++ "/"). rewrite <- append_assoc.
      rewrite replace_trailing_slash_removes. apply ends_with_slash_append.
  - reflexivity.
  - intros path options w. apply request_requests.
Qed.

(** A 201 whose [Location] header is there with an empty value is answered
    like one without the header. *)
Example request_created_empty_location :
  fst (request sample_client "/boards/b1/cards" (mkOptions (Some "POST") None)
         (sample_world [Return (mkResponse 201 [("Location", EmptyString)] EmptyString)]))
  = Return (JS.Object [("success", JS.Bool true)]).
Proof. reflexivity. Qed.

(** * The handler as a whole *)

(** ** At most one exchange per call *)

Section Exchanges.

Context {R : Runtime}.

Implicit Types (client : FizzyClient) (w : World).

Lemma quiet_lift {A} (o : Outcome A) : quiet (lift o).
Proof. intros w. reflexivity. Qed.

Lemma quiet_ret {A} (a : A) : quiet (ret a).
Proof. intros w. reflexivity. Qed.

Lemma quiet_throw {A} (message : string) : quiet (throw (A := A) message).
Proof. intros w. reflexivity. Qed.

Lemma polite_quiet {A} client (m : M A) : quiet m -> polite client m.
Proof.
  intros Q w. exists []. rewrite (Q w), app_nil_r. split; [reflexivity | now left].
Qed.

Lemma polite_bind_l {A B} client (m : M A) (k : A -> M B) :
  quiet m -> (forall a, polite client (k a)) -> polite client (bind m k).
Proof.
  intros Q P w. unfold bind. specialize (Q w).
  destruct (m w) as [[a|message] w']; simpl in Q; subst w'.
  - apply P.
  - exists []. simpl. rewrite app_nil_r. split; [reflexivity | now left].
Qed.

Lemma polite_bind_r {A B} client (m : M A) (k : A -> M B) :
  polite client m -> (forall a, quiet (k a)) -> polite client (bind m k).
Proof.
  intros P Q w. unfold bind. specialize (P w).
  destruct (m w) as [[a|message] w']; simpl in P |- *.
  - now rewrite (Q a w').
  - exact P.
Qed.

Lemma polite_request client (path : string) (options : Options) :
  board_or_card_path path -> polite client (request client path options).
Proof.
  intros Hp w.
  assert (Shape : forall t : list Event,
             (t = [Fetched (request_url client path) (request_init client options)]
              \/ t = [Fetched (request_url client path) (request_init client options);
                      TextRead]) ->
             one_exchange client t).
  { intros t Ht. right. now exists path, options. }
  unfold request, bind, await_fetch, await_text, ret, throw. simpl.
  destruct (fetch (net w) _ _) as [n [resp|message]]; simpl.
  - destruct (negb (ok resp)); simpl.
    + eexists. rewrite <- app_assoc. split; [reflexivity|]. apply Shape. now right.
    + destruct (status resp =? 201)%nat.
      * destruct (Headers_get _ _) as [l|]; simpl;
          [destruct (negb (l =? EmptyString))|]; simpl;
          (eexists; split; [reflexivity|]; apply Shape; now left).
      * simpl. destruct (negb (negb _)); simpl; [|destruct (JSON_parse _)]; simpl;
          (eexists; rewrite <- app_assoc; split; [reflexivity|]; apply Shape; now right).
  - eexists. split; [reflexivity|]. apply Shape. now left.
Qed.

Lemma board_path (rest : string) : board_or_card_path ("/boards" ++ rest).
Proof. left. simpl. discriminate. Qed.

Lemma card_path (rest : string) : board_or_card_path ("/cards" ++ rest).
Proof. right. simpl. discriminate. Qed.

Create HintDb polite discriminated.

Hint Resolve quiet_lift quiet_ret quiet_throw polite_quiet polite_request
  board_path card_path : polite.

(** A validated identifier, then a request. *)
Lemma polite_guarded client (id paramName path : string) (options : Options) :
  board_or_card_path path ->
  polite client (bind (lift (validateId id paramName))
                   (fun _ => request client path options)).
Proof. intros H. apply polite_bind_l; auto with polite. Qed.

Lemma polite_guarded_unit client (id paramName path : string) (options : Options) :
  board_or_card_path path ->
  polite client (bind (lift (validateId id paramName))
                   (fun _ => bind (request client path options) (fun _ => ret tt))).
Proof.
  intros H. apply polite_bind_l; [auto with polite|].
  intros _. apply polite_bind_r; auto with polite.
Qed.

Lemma polite_listCards client (boardId : option string) :
  polite client (listCards client boardId).
Proof.
  unfold listCards. apply polite_bind_r.
  - apply polite_request. apply (card_path EmptyString).
  - intros cards. destruct (JS.truthy (optional boardId)); [|auto with polite].
    destruct cards; destruct boardId; auto with polite.
    destruct (filter_cards s xs); auto with polite.
Qed.

Lemma polite_tool_result client (name : string) (args : JS.Value) :
  polite client (tool_result client name args).
Proof.
  unfold tool_result.
  repeat match goal with
         | |- polite _ (if ?c then _ else _) => destruct c
         end;
    try match goal with
        | |- polite _ (bind (lift (validateToolArgs _ _ _)) _) =>
            apply polite_bind_l; [auto with polite|]; intros v
        end.
  - apply polite_request, (board_path EmptyString).
  - apply polite_guarded, (board_path ("/" ++ _)).
  - apply polite_request, (board_path EmptyString).
  - apply polite_listCards.
  - apply polite_guarded, (card_path ("/" ++ _)).
  - apply polite_guarded, (board_path ("/" ++ _)).
  - apply polite_guarded, (card_path ("/" ++ _)).
  - apply polite_bind_r; [|auto with polite].
    destruct (the_string v "column" =? "done");
      [|destruct (the_string v "column" =? "not_now")].
    + apply polite_guarded_unit, (card_path ("/" ++ _)).
    + apply polite_guarded_unit, (card_path ("/" ++ _)).
    + unfold moveCardToColumn. apply polite_bind_l; [auto with polite|].
      intros _. apply polite_guarded_unit, (card_path ("/" ++ _)).
  - apply polite_guarded, (board_path ("/" ++ _)).
  - apply polite_guarded, (card_path ("/" ++ _)).
  - apply polite_guarded, (card_path ("/" ++ _)).
  - apply polite_bind_r; [|auto with polite].
    apply polite_guarded_unit, (card_path ("/" ++ _)).
  - apply polite_bind_r; [|auto with polite].
    apply polite_guarded_unit, (card_path ("/" ++ _)).
  - auto with polite.
Qed.

(** X2: whatever the tool name and the arguments, one call of the handler
    adds to the trace nothing, or one request of the client under [/boards]
    or [/cards] with the client's URL prefix and headers, or that request
    and one read of its body: never a second request. *)
Theorem callTool_one_exchange client (name : string) (args : JS.Value) w :
  exists evs,
    trace (snd (callTool client name args w)) = (trace w ++ evs)%list
    /\ one_exchange client evs
    /\ List.length (requests evs) <= 1
    /\ body_reads evs <= List.length (requests evs).
Proof.
  destruct (polite_tool_result client name args w) as (evs & E & X).
  exists evs. rewrite snd_callTool. split; [exact E|]. split; [exact X|].
  destruct X as [-> | (path & options & _ & [-> | ->])]; simpl; auto.
Qed.

End Exchanges.

(** ** Names the handler knows, arguments it refuses, a network that is down *)

Section Dispatch.

Context {R : Runtime}.

Implicit Types (client : FizzyClient) (w : World).

Lemma requests_grow_neq (t : list Event) (x : string * RequestInit) :
  requests t <> (requests t ++ [x])%list.
Proof.
  intros H. apply (f_equal (@List.length _)) in H.
  rewrite length_app in H. simpl in H. lia.
Qed.

(** X1: the handler knows exactly the names of [TOOLS].  A name outside the
    table is answered with the error [Unknown tool: name] and the world is
    left as it is; a name of the table, called without arguments, is never
    answered that way with the world left as it is. *)
Theorem unknown_tool_iff_unlisted client (toolName : string) :
  (~ In toolName (map name TOOLS) ->
   forall args w,
     callTool client toolName args w
     = (mkToolResponse ("Error: Unknown tool: " ++ toolName) true, w))
  /\ (In toolName (map name TOOLS) ->
      forall w,
        callTool client toolName JS.Undefined w
        <> (mkToolResponse ("Error: Unknown tool: " ++ toolName) true, w)).
Proof.
  split.
  - intros H args w. unfold callTool, tool_result.
    repeat match goal with
           | |- context [if toolName =? ?s then _ else _] =>
               destruct (String.eqb_spec toolName s) as [E|_];
               [exfalso; apply H; rewrite E; simpl; tauto|]
           end.
    reflexivity.
  - intros H w Eq. apply in_map_iff in H. destruct H as (t & <- & Hin).
    assert (Hcase : properties (inputSchema t) = [] \/ properties (inputSchema t) <> [])
      by (destruct (properties (inputSchema t)); [now left | right; discriminate]).
    destruct Hcase as [Hp | Hp].
    + (* no arguments declared: the call reaches the network *)
      simpl in Hin.
      repeat (destruct Hin as [<- | Hin]; try discriminate Hp); try contradiction.
      apply (f_equal (fun p => requests (trace (snd p)))) in Eq.
      rewrite snd_callTool in Eq. simpl snd in Eq.
      change (tool_result client "fizzy_list_boards" JS.Undefined w)
        with (request client "/boards" no_options w) in Eq.
      rewrite request_requests in Eq. symmetry in Eq.
      exact (requests_grow_neq _ _ Eq).
    + assert (Hv : validateToolArgs JS.Undefined (declared_schema t) (name t)
                   = Throw ("Tool '" ++ name t ++ "' requires arguments object"))
        by reflexivity.
      rewrite (@callTool_validation_failure R client t JS.Undefined w _ Hin Hp Hv) in Eq.
      simpl in Hin.
      repeat (destruct Hin as [<- | Hin]; [discriminate Eq|]). contradiction.
Qed.

Lemma validateToolArgs_not_record (args : JS.Value) (schema : Schema) (toolName : string) :
  ~ record_shaped args ->
  validateToolArgs args schema toolName
  = Throw ("Tool '" ++ toolName ++ "' requires arguments object").
Proof.
  intros H. unfold validateToolArgs.
  destruct (JS.truthy args) eqn:T; [|reflexivity].
  destruct (String.eqb_spec (JS.typeof args) "object") as [O|O]; [|reflexivity].
  exfalso. apply H. now split.
Qed.

(** X3: every tool that declares arguments, also one whose arguments are all
    optional, refuses a call whose arguments are absent or not an object
    ([undefined], [null], a number, a string, a boolean): the answer is the
    error [Tool 'name' requires arguments object], and nothing is sent. *)
Theorem non_record_arguments_refused client (t : Tool) (args : JS.Value) w :
  In t TOOLS ->
  properties (inputSchema t) <> [] ->
  ~ record_shaped args ->
  callTool client (name t) args w
  = (mkToolResponse ("Error: Tool '" ++ name t ++ "' requires arguments object") true, w).
Proof.
  intros Hin Hp Hr.
  exact (@callTool_validation_failure R client t args w _ Hin Hp
           (validateToolArgs_not_record (declared_schema t) (name t) Hr)).
Qed.

Lemma needs_request client (path : string) (options : Options) :
  needs_network (request client path options).
Proof.
  intros w D. destruct (D (request_url client path) (request_init client options))
    as (n & message & F).
  exists message. unfold request, bind, await_fetch. simpl. now rewrite F.
Qed.

Lemma needs_bind {A B} (m : M A) (k : A -> M B) :
  needs_network m -> needs_network (bind m k).
Proof.
  intros N w D. destruct (N w D) as (message & E). exists message.
  unfold bind. destruct (m w) as [[a|m'] w']; simpl in E |- *; [discriminate|].
  now injection E as ->.
Qed.

Lemma needs_bind_lift {A B} (o : Outcome A) (k : A -> M B) :
  (forall a, needs_network (k a)) -> needs_network (bind (lift o) k).
Proof.
  intros N w D. destruct o as [a|message]; simpl.
  - exact (N a w D).
  - now exists message.
Qed.

Lemma needs_throw {A} (message : string) : needs_network (throw (A := A) message).
Proof. intros w _. now exists message. Qed.

Lemma needs_tool_result client (toolName : string) (args : JS.Value) :
  needs_network (tool_result client toolName args).
Proof.
  unfold tool_result.
  repeat match goal with
         | |- needs_network (if ?c then _ else _) => destruct c
         end;
    try match goal with
        | |- needs_network (bind (lift (validateToolArgs _ _ _)) _) =>
            apply needs_bind_lift; intros v
        end;
    repeat first
      [ apply needs_throw
      | apply needs_request
      | match goal with
        | |- needs_network (if ?c then _ else _) => destruct c
        | |- needs_network (bind (lift _) _) => apply needs_bind_lift; intros _
        | |- needs_network (bind _ _) => apply needs_bind
        end
      | progress unfold listBoards, getBoard, createBoard, listCards, getCard,
          createCard, updateCard, listColumns, listComments, addComment, addTag,
          removeTag, moveCardToDone, moveCardToNotNow, moveCardToColumn ].
Qed.

(** X4: when every [fetch] is rejected, no tool reports success: the answer
    of any call, whatever the name and the arguments, is an error. *)
Theorem callTool_network_down client (toolName : string) (args : JS.Value) w :
  network_down w ->
  exists message,
    fst (callTool client toolName args w)
    = mkToolResponse ("Error: " ++ message) true.
Proof.
  intros D. destruct (needs_tool_result client toolName args D) as (message & E).
  exists message. unfold callTool.
  destruct (tool_result client toolName args w) as [[v|m] w']; simpl in E;
    [discriminate|].
  now injection E as ->.
Qed.

End Dispatch.

Lemma non_record_arguments_refused_witness :
  In list_cards_tool TOOLS
  /\ properties (inputSchema list_cards_tool) <> []
  /\ ~ record_shaped JS.Undefined
  /\ callTool sample_client "fizzy_list_cards" JS.Undefined (sample_world [Return empty_ok])
     = (mkToolResponse "Error: Tool 'fizzy_list_cards' requires arguments object" true,
        sample_world [Return empty_ok]).
Proof.
  assert (Hin : In list_cards_tool TOOLS) by (simpl; tauto).
  assert (Hp : properties (inputSchema list_cards_tool) <> []) by discriminate.
  assert (Hr : ~ record_shaped JS.Undefined) by (intros [H _]; discriminate H).
  split; [exact Hin|]. split; [exact Hp|]. split; [exact Hr|].
  exact (@non_record_arguments_refused sample_runtime sample_client list_cards_tool
           JS.Undefined (sample_world [Return empty_ok]) Hin Hp Hr).
Defined.

Lemma callTool_network_down_witness :
  network_down (sample_world [])
  /\ exists message,
       fst (callTool sample_client "fizzy_add_tag"
              (JS.Object [("card_id", JS.Str "15"); ("tag", JS.Str "bug")])
              (sample_world []))
       = mkToolResponse ("Error: " ++ message) true.
Proof.
  assert (D : network_down (sample_world [])).
  { intros url init. exists [], "fetch failed". reflexivity. }
  split; [exact D|].
  exact (@callTool_network_down sample_runtime sample_client "fizzy_add_tag"
           (JS.Object [("card_id", JS.Str "15"); ("tag", JS.Str "bug")])
           (sample_world []) D).
Defined.

(** ** What validation lets through *)

Lemma in_assign (k f : string) (x v : JS.Value) (props : list (string * JS.Value)) :
  In (k, x) (JS.assign f v props) -> (k = f /\ x = v) \/ In (k, x) props.
Proof.
  induction props as [|[k' x'] rest IH]; simpl.
  - intros [[= <- <-] | []]. now left.
  - destruct (k' =? f); simpl.
    + intros [[= <- <-] | H]; [now left | right; now right].
    + intros [E | H]; [right; now left|].
      destruct (IH H) as [L | Rr]; [now left | right; now right].
Qed.

Lemma validated_entries_declared (args : JS.Value) (schema part : Schema)
    (c : Collected) :
  incl part schema ->
  (forall k x, In (k, x) (validated c) -> declared_value args schema k x) ->
  forall k x,
    In (k, x) (validated (fold_left (validate_entry args) part c)) ->
    declared_value args schema k x.
Proof.
  revert c. induction part as [|[f t] rest IH]; intros c Hincl Hc; simpl; [exact Hc|].
  apply IH; [intros e He; apply Hincl; now right|].
  unfold validate_entry.
  destruct (JS.is_nullish (JS.get args f)) eqn:N.
  - destruct (negb (endsWith_qmark t)); exact Hc.
  - destruct (JS.typeof (JS.get args f)
              =? (if endsWith_qmark t then slice_0_m1 t else t)) eqn:T;
      simpl; [|exact Hc].
    intros k x Hin. destruct (in_assign _ _ _ _ _ Hin) as [[-> ->] | Hold];
      [|now apply Hc].
    repeat split; trivial. exists t. split.
    + apply Hincl. now left.
    + apply String.eqb_eq in T. exact T.
Qed.

(** X5: the validated bag of a tool of [TOOLS] holds the declared fields that
    are present, and nothing else.  It is an object; each of its entries is
    a field of the tool's schema with the value the raw bag gives for it,
    which is neither [null] nor [undefined] and has the type the schema
    expects; and every field of the schema that the raw bag gives a value is
    in it with that value.  A field outside the schema is not passed on. *)
Theorem validated_bag_declared (t : Tool) (args v : JS.Value) :
  In t TOOLS ->
  validateToolArgs args (declared_schema t) (name t) = Return v ->
  exists bag,
    v = JS.Object bag
    /\ (forall k x, In (k, x) bag -> declared_value args (declared_schema t) k x)
    /\ (forall f expectedType,
          In (f, expectedType) (declared_schema t) ->
          JS.is_nullish (JS.get args f) = false ->
          JS.lookup f bag = JS.get args f).
Proof.
  intros _ Hv. pose proof (validateToolArgs_returns_object _ _ _ Hv) as Hobj.
  set (schema := declared_schema t) in *.
  set (bag := validated (fold_left (validate_entry args) schema (mkCollected [] [] [])))
    in *.
  exists bag. split; [exact Hobj|]. split.
  - apply validated_entries_declared; [apply incl_refl | intros k x []].
  - intros f expectedType Hin N.
    assert (Hr : record_shaped args).
    { unfold validateToolArgs in Hv. unfold record_shaped.
      destruct (JS.truthy args); [|discriminate].
      destruct (String.eqb_spec (JS.typeof args) "object"); [auto | discriminate]. }
    destruct (@validateToolArgs_record args schema (name t) Hr)
      as [(_ & Hw & _) | (_ & Ht)]; [|congruence].
    apply validated_holds with (expectedType := expectedType); trivial.
    destruct (String.eqb_spec (JS.typeof (JS.get args f)) (expected_base expectedType))
      as [E|E]; [exact E|].
    assert (In (f, expected_base expectedType, JS.typeof (JS.get args f))
               (wrong_fields args schema)) as Hf; [|now rewrite Hw in Hf].
    unfold wrong_fields.
    apply in_map_iff. exists (f, expectedType). split; [reflexivity|].
    apply filter_In. split; [exact Hin|].
    simpl fst. simpl snd. rewrite N.
    apply String.eqb_neq in E. now rewrite E.
Qed.

Lemma validated_bag_declared_witness :
  In get_card_tool TOOLS
  /\ validateToolArgs
       (JS.Object [("card_id", JS.Str "7"); ("admin", JS.Str "yes")])
       (declared_schema get_card_tool) (name get_card_tool)
     = Return (JS.Object [("card_id", JS.Str "7")])
  /\ exists bag,
       JS.Object [("card_id", JS.Str "7")] = JS.Object bag
       /\ (forall k x, In (k, x) bag ->
             declared_value
               (JS.Object [("card_id", JS.Str "7"); ("admin", JS.Str "yes")])
               (declared_schema get_card_tool) k x)
       /\ (forall f expectedType,
             In (f, expectedType) (declared_schema get_card_tool) ->
             JS.is_nullish
               (JS.get (JS.Object [("card_id", JS.Str "7"); ("admin", JS.Str "yes")]) f)
             = false ->
             JS.lookup f bag
             = JS.get (JS.Object [("card_id", JS.Str "7"); ("admin", JS.Str "yes")]) f).
Proof.
  assert (Hin : In get_card_tool TOOLS) by (simpl; tauto).
  split; [exact Hin|]. split; [reflexivity|].
  exact (@validated_bag_declared get_card_tool
           (JS.Object [("card_id", JS.Str "7"); ("admin", JS.Str "yes")])
           (JS.Object [("card_id", JS.Str "7")]) Hin eq_refl).
Defined.

Lemma validate_entries_agree (a1 a2 : JS.Value) (schema : Schema) (c : Collected) :
  (forall f, In f (map fst schema) -> JS.get a1 f = JS.get a2 f) ->
  fold_left (validate_entry a1) schema c = fold_left (validate_entry a2) schema c.
Proof.
  revert c. induction schema as [|[f t] rest IH]; intros c H; cbn [fold_left];
    [reflexivity|].
  rewrite (validate_entry_nullish a1 a2 c (f, t));
    [|left; apply H; now left].
  apply IH. intros g Hg. apply H. now right.
Qed.

(** X6: validation looks at the declared fields only: two argument objects
    that agree on every field of the schema get the same outcome, the same
    validated bag or the same error, whatever else they hold. *)
Theorem validation_ignores_undeclared (p1 p2 : list (string * JS.Value))
    (schema : Schema) (toolName : string) :
  (forall f, In f (map fst schema) -> JS.lookup f p1 = JS.lookup f p2) ->
  validateToolArgs (JS.Object p1) schema toolName
  = validateToolArgs (JS.Object p2) schema toolName.
Proof.
  intros H. unfold validateToolArgs. simpl JS.truthy. simpl JS.typeof.
  now rewrite (validate_entries_agree (JS.Object p1) (JS.Object p2) schema
                 (mkCollected [] [] []) H).
Qed.

Lemma validation_ignores_undeclared_witness :
  (forall f, In f (map fst [("card_id", "string"); ("tag", "string")]) ->
     JS.lookup f [("card_id", JS.Str "15"); ("tag", JS.Number 3); ("x", JS.Null)]
     = JS.lookup f [("tag", JS.Number 3); ("card_id", JS.Str "15")])
  /\ validateToolArgs
       (JS.Object [("card_id", JS.Str "15"); ("tag", JS.Number 3); ("x", JS.Null)])
       [("card_id", "string"); ("tag", "string")] "fizzy_add_tag"
     = validateToolArgs
         (JS.Object [("tag", JS.Number 3); ("card_id", JS.Str "15")])
         [("card_id", "string"); ("tag", "string")] "fizzy_add_tag".
Proof.
  assert (H : forall f, In f (map fst [("card_id", "string"); ("tag", "string")]) ->
     JS.lookup f [("card_id", JS.Str "15"); ("tag", JS.Number 3); ("x", JS.Null)]
     = JS.lookup f [("tag", JS.Number 3); ("card_id", JS.Str "15")]).
  { intros f [<- | [<- | []]]; reflexivity. }
  split; [exact H|].
  exact (@validation_ignores_undeclared _ _ _ "fizzy_add_tag" H).
Defined.

(** ** From validated arguments to the request *)

Section Relays.

Context {R : Runtime}.

Implicit Types (client : FizzyClient) (w : World).

Lemma callTool_answer client (toolName : string) (args : JS.Value) w :
  callTool client toolName args w
  = (answer (fst (tool_result client toolName args w)),
     snd (tool_result client toolName args w)).
Proof.
  unfold callTool. now destruct (tool_result client toolName args w) as [[v|m] w'].
Qed.

Lemma relay_of_request client (toolName path : string) (options : Options)
    (args : JS.Value) w :
  tool_result client toolName args w = request client path options w ->
  callTool client toolName args w = relay client path options w.
Proof.
  intros E. rewrite callTool_answer, E. unfold relay, relay_with.
  now destruct (request client path options w) as [[v|m] w'].
Qed.

Lemma relay_of_guarded client (toolName id paramName path : string)
    (options : Options) (args : JS.Value) w :
  idPattern_test id = true ->
  tool_result client toolName args w
  = bind (lift (validateId id paramName)) (fun _ => request client path options) w ->
  callTool client toolName args w = relay client path options w.
Proof.
  intros Hid E. apply relay_of_request. rewrite E.
  now rewrite (@validateId_valid id paramName Hid).
Qed.

Lemma relay_of_guarded_unit client (toolName id paramName path : string)
    (options : Options) (args result : JS.Value) w :
  idPattern_test id = true ->
  tool_result client toolName args w
  = bind (bind (lift (validateId id paramName))
            (fun _ => bind (request client path options) (fun _ => ret tt)))
      (fun _ => ret result) w ->
  callTool client toolName args w
  = relay_with (fun _ => Return result) client path options w.
Proof.
  intros Hid E. rewrite callTool_answer, E. unfold relay_with.
  rewrite (@validateId_valid id paramName Hid).
  unfold bind, lift, ret.
  now destruct (request client path options w) as [[v|m] w'].
Qed.

(** Entering the branch of a tool whose arguments validate. *)
Ltac enter_validated Hv :=
  unfold tool_result; cbn [String.eqb Ascii.eqb Bool.eqb];
  unfold bind at 1; unfold lift at 1; rewrite Hv.

(** X8: the board tools.  Listing boards is one GET of [/boards], whatever
    the arguments; getting a board whose identifier passes the pattern is one
    GET of [/boards/{board_id}]; creating a board is one POST to [/boards]
    with the body [{board: {name, description}}], where [description] is
    [undefined] when the raw bag has none or [null].  The answer is that of
    the request. *)
Theorem board_tools_relay client (args : JS.Value) w :
  callTool client "fizzy_list_boards" args w = relay client "/boards" no_options w
  /\ (forall v,
        validateToolArgs args [("board_id", "string")] "fizzy_get_board" = Return v ->
        idPattern_test (the_string args "board_id") = true ->
        callTool client "fizzy_get_board" args w
        = relay client ("/boards/" ++ the_string args "board_id") no_options w)
  /\ (forall v,
        validateToolArgs args [("name", "string"); ("description", "string?")]
          "fizzy_create_board" = Return v ->
        callTool client "fizzy_create_board" args w
        = relay client "/boards"
            (mkOptions (Some "POST")
               (Some (JSON_stringify
                        (JS.Object
                           [("board",
                             JS.Object
                               [("name", JS.Str (the_string args "name"));
                                ("description",
                                 optional (the_optional args "description"))])]))))
            w).
Proof.
  split; [|split].
  - now apply relay_of_request.
  - intros v Hv Hid. destruct (validated_view _ _ _ Hv) as [Hs _].
    destruct (Hs "board_id") as [E _]; [simpl; tauto|].
    apply relay_of_guarded with (paramName := "boardId") (id := the_string args "board_id");
      [exact Hid|].
    enter_validated Hv. unfold getBoard. now rewrite E.
  - intros v Hv. destruct (validated_view _ _ _ Hv) as [Hs Ho].
    destruct (Hs "name") as [E _]; [simpl; tauto|].
    apply relay_of_request.
    enter_validated Hv. unfold createBoard.
    rewrite E, (Ho "description"); [reflexivity | simpl; tauto].
Qed.

(** X9: the card tools.  With arguments that validate and an identifier that
    passes the pattern: getting a card is one GET of [/cards/{card_id}];
    creating a card is one POST to [/boards/{board_id}/cards] with the body
    [{card: {title, description}}]; updating a card is one PATCH of
    [/cards/{card_id}] with the body [{card: {title, description}}], where a
    field the raw bag leaves out or [null] is [undefined].  The answer is
    that of the request. *)
Theorem card_tools_relay client (args : JS.Value) w :
  (forall v,
     validateToolArgs args [("card_id", "string")] "fizzy_get_card" = Return v ->
     idPattern_test (the_string args "card_id") = true ->
     callTool client "fizzy_get_card" args w
     = relay client ("/cards/" ++ the_string args "card_id") no_options w)
  /\ (forall v,
        validateToolArgs args
          [("board_id", "string"); ("title", "string"); ("description", "string?")]
          "fizzy_create_card" = Return v ->
        idPattern_test (the_string args "board_id") = true ->
        callTool client "fizzy_create_card" args w
        = relay client ("/boards/" ++ the_string args "board_id" ++ "/cards")
            (mkOptions (Some "POST")
               (Some (JSON_stringify
                        (JS.Object
                           [("card",
                             JS.Object
                               [("title", JS.Str (the_string args "title"));
                                ("description",
                                 optional (the_optional args "description"))])]))))
            w)
  /\ (forall v,
        validateToolArgs args
          [("card_id", "string"); ("title", "string?"); ("description", "string?")]
          "fizzy_update_card" = Return v ->
        idPattern_test (the_string args "card_id") = true ->
        callTool client "fizzy_update_card" args w
        = relay client ("/cards/" ++ the_string args "card_id")
            (mkOptions (Some "PATCH")
               (Some (JSON_stringify
                        (JS.Object
                           [("card",
                             JS.Object
                               [("title", optional (the_optional args "title"));
                                ("description",
                                 optional (the_optional args "description"))])]))))
            w).
Proof.
  split; [|split].
  - intros v Hv Hid. destruct (validated_view _ _ _ Hv) as [Hs _].
    destruct (Hs "card_id") as [E _]; [simpl; tauto|].
    apply relay_of_guarded with (paramName := "cardId") (id := the_string args "card_id");
      [exact Hid|].
    enter_validated Hv. unfold getCard. now rewrite E.
  - intros v Hv Hid. destruct (validated_view _ _ _ Hv) as [Hs Ho].
    destruct (Hs "board_id") as [E _]; [simpl; tauto|].
    destruct (Hs "title") as [Et _]; [simpl; tauto|].
    apply relay_of_guarded with (paramName := "boardId") (id := the_string args "board_id");
      [exact Hid|].
    enter_validated Hv. unfold createCard.
    rewrite E, Et, (Ho "description"); [reflexivity | simpl; tauto].
  - intros v Hv Hid. destruct (validated_view _ _ _ Hv) as [Hs Ho].
    destruct (Hs "card_id") as [E _]; [simpl; tauto|].
    apply relay_of_guarded with (paramName := "cardId") (id := the_string args "card_id");
      [exact Hid|].
    enter_validated Hv. unfold updateCard.
    rewrite E, (Ho "title"), (Ho "description"); [reflexivity | simpl; tauto ..].
Qed.

(** X10: columns and comments.  With arguments that validate and an
    identifier that passes the pattern: listing columns is one GET of
    [/boards/{board_id}/columns]; listing comments is one GET of
    [/cards/{card_id}/comments]; adding a comment is one POST to
    [/cards/{card_id}/comments] with the body [{comment: {body}}].  The
    answer is that of the request. *)
Theorem column_and_comment_tools_relay client (args : JS.Value) w :
  (forall v,
     validateToolArgs args [("board_id", "string")] "fizzy_list_columns" = Return v ->
     idPattern_test (the_string args "board_id") = true ->
     callTool client "fizzy_list_columns" args w
     = relay client ("/boards/" ++ the_string args "board_id" ++ "/columns")
         no_options w)
  /\ (forall v,
        validateToolArgs args [("card_id", "string")] "fizzy_list_comments" = Return v ->
        idPattern_test (the_string args "card_id") = true ->
        callTool client "fizzy_list_comments" args w
        = relay client ("/cards/" ++ the_string args "card_id" ++ "/comments")
            no_options w)
  /\ (forall v,
        validateToolArgs args [("card_id", "string"); ("body", "string")]
          "fizzy_add_comment" = Return v ->
        idPattern_test (the_string args "card_id") = true ->
        callTool client "fizzy_add_comment" args w
        = relay client ("/cards/" ++ the_string args "card_id" ++ "/comments")
            (mkOptions (Some "POST")
               (Some (JSON_stringify
                        (JS.Object
                           [("comment",
                             JS.Object [("body", JS.Str (the_string args "body"))])]))))
            w).
Proof.
  split; [|split].
  - intros v Hv Hid. destruct (validated_view _ _ _ Hv) as [Hs _].
    destruct (Hs "board_id") as [E _]; [simpl; tauto|].
    apply relay_of_guarded with (paramName := "boardId") (id := the_string args "board_id");
      [exact Hid|].
    enter_validated Hv. unfold listColumns. now rewrite E.
  - intros v Hv Hid. destruct (validated_view _ _ _ Hv) as [Hs _].
    destruct (Hs "card_id") as [E _]; [simpl; tauto|].
    apply relay_of_guarded with (paramName := "cardId") (id := the_string args "card_id");
      [exact Hid|].
    enter_validated Hv. unfold listComments. now rewrite E.
  - intros v Hv Hid. destruct (validated_view _ _ _ Hv) as [Hs _].
    destruct (Hs "card_id") as [E _]; [simpl; tauto|].
    destruct (Hs "body") as [Eb _]; [simpl; tauto|].
    apply relay_of_guarded with (paramName := "cardId") (id := the_string args "card_id");
      [exact Hid|].
    enter_validated Hv. unfold addComment. now rewrite E, Eb.
Qed.

(** X11: tags and moves answer with their own message.  With arguments that
    validate and identifiers that pass the pattern, the tools [fizzy_add_tag],
    [fizzy_remove_tag] and [fizzy_move_card] send their one request and, when
    it returns, answer [{success: true, message}] with a message built from
    the arguments alone; what the service sent back is dropped.  When the
    request throws, the answer is that error. *)
Theorem tag_and_move_answers client (args : JS.Value) w :
  (forall v,
     validateToolArgs args [("card_id", "string"); ("tag", "string")]
       "fizzy_add_tag" = Return v ->
     idPattern_test (the_string args "card_id") = true ->
     callTool client "fizzy_add_tag" args w
     = relay_with
         (fun _ => Return (JS.Object
            [("success", JS.Bool true);
             ("message", JS.Str ("Tag '" ++ the_string args "tag" ++ "' added to card"))]))
         client ("/cards/" ++ the_string args "card_id" ++ "/taggings")
         (mkOptions (Some "POST")
            (Some (JSON_stringify
                     (JS.Object [("tag_title", JS.Str (the_string args "tag"))]))))
         w)
  /\ (forall v,
        validateToolArgs args [("card_id", "string"); ("tag", "string")]
          "fizzy_remove_tag" = Return v ->
        idPattern_test (the_string args "card_id") = true ->
        callTool client "fizzy_remove_tag" args w
        = relay_with
            (fun _ => Return (JS.Object
               [("success", JS.Bool true);
                ("message",
                 JS.Str ("Tag '" ++ the_string args "tag" ++ "' removed from card"))]))
            client ("/cards/" ++ the_string args "card_id" ++ "/taggings")
            (mkOptions (Some "POST")
               (Some (JSON_stringify
                        (JS.Object [("tag_title", JS.Str (the_string args "tag"))]))))
            w)
  /\ (forall v,
        validateToolArgs args [("card_id", "string"); ("column", "string")]
          "fizzy_move_card" = Return v ->
        idPattern_test (the_string args "card_id") = true ->
        let moved :=
          fun _ : JS.Value =>
            Return (JS.Object
              [("success", JS.Bool true);
               ("message", JS.Str ("Card moved to " ++ the_string args "column"))]) in
        (the_string args "column" = "done" ->
         callTool client "fizzy_move_card" args w
         = relay_with moved client
             ("/cards/" ++ the_string args "card_id" ++ "/closure")
             (mkOptions (Some "POST") None) w)
        /\ (the_string args "column" = "not_now" ->
            callTool client "fizzy_move_card" args w
            = relay_with moved client
                ("/cards/" ++ the_string args "card_id" ++ "/not_now")
                (mkOptions (Some "POST") None) w)
        /\ (the_string args "column" <> "done" ->
            the_string args "column" <> "not_now" ->
            idPattern_test (the_string args "column") = true ->
            callTool client "fizzy_move_card" args w
            = relay_with moved client
                ("/cards/" ++ the_string args "card_id" ++ "/column")
                (mkOptions (Some "PATCH")
                   (Some (JSON_stringify
                            (JS.Object
                               [("column_id", JS.Str (the_string args "column"))]))))
                w)).
Proof.
  split; [|split].
  - intros v Hv Hid. destruct (validated_view _ _ _ Hv) as [Hs _].
    destruct (Hs "card_id") as [E _]; [simpl; tauto|].
    destruct (Hs "tag") as [Et _]; [simpl; tauto|].
    apply relay_of_guarded_unit with (paramName := "cardId")
                                     (id := the_string args "card_id");
      [exact Hid|].
    enter_validated Hv. unfold addTag. now rewrite E, Et.
  - intros v Hv Hid. destruct (validated_view _ _ _ Hv) as [Hs _].
    destruct (Hs "card_id") as [E _]; [simpl; tauto|].
    destruct (Hs "tag") as [Et _]; [simpl; tauto|].
    apply relay_of_guarded_unit with (paramName := "cardId")
                                     (id := the_string args "card_id");
      [exact Hid|].
    enter_validated Hv. unfold removeTag. now rewrite E, Et.
  - intros v Hv Hid moved. destruct (validated_view _ _ _ Hv) as [Hs _].
    destruct (Hs "card_id") as [E _]; [simpl; tauto|].
    destruct (Hs "column") as [Ec _]; [simpl; tauto|].
    split; [|split].
    + intros Hc.
      apply relay_of_guarded_unit with (paramName := "cardId")
                                       (id := the_string args "card_id");
        [exact Hid|].
      enter_validated Hv. rewrite E, Ec, Hc. reflexivity.
    + intros Hc.
      apply relay_of_guarded_unit with (paramName := "cardId")
                                       (id := the_string args "card_id");
        [exact Hid|].
      enter_validated Hv. rewrite E, Ec, Hc. reflexivity.
    + intros Hd Hn Hcol.
      apply relay_of_guarded_unit with (paramName := "columnId")
                                       (id := the_string args "column");
        [exact Hcol|].
      enter_validated Hv. rewrite E, Ec.
      apply String.eqb_neq in Hd, Hn. rewrite Hd, Hn.
      unfold moveCardToColumn.
      now rewrite (@validateId_valid (the_string args "card_id") "cardId" Hid).
Qed.

(** *** Listing cards *)

Lemma on_board_value (boardId : string) (c : JS.Value) :
  JS.is_nullish c = false -> on_board boardId c = Return (card_on_board boardId c).
Proof.
  intros N. unfold on_board, card_on_board.
  destruct c; try discriminate N;
    (destruct (JS.get _ "board") eqn:B; reflexivity).
Qed.

Lemma filter_cards_present (boardId : string) (cards : list JS.Value) :
  (forall c, In c cards -> JS.is_nullish c = false) ->
  filter_cards boardId cards = Return (filter (card_on_board boardId) cards).
Proof.
  induction cards as [|c rest IH]; intros H; simpl; [reflexivity|].
  rewrite (on_board_value boardId c (H c (or_introl eq_refl))).
  rewrite IH; [|intros x Hx; apply H; now right].
  now destruct (card_on_board boardId c).
Qed.

Lemma filter_cards_nullish (boardId : string) (cards : list JS.Value) (c : JS.Value) :
  In c cards -> JS.is_nullish c = true ->
  exists message, filter_cards boardId cards = Throw message.
Proof.
  induction cards as [|x rest IH]; intros Hin N; [contradiction|].
  simpl. destruct (on_board boardId x) as [keep|m] eqn:O; [|now exists m].
  destruct Hin as [-> | Hin].
  - destruct c; discriminate.
  - destruct (IH Hin N) as (m & ->). now exists m.
Qed.

(** X12: listing cards always asks for the whole collection, one GET of
    [/cards]: the board identifier never enters the URL and is not checked
    against the identifier pattern.  Without a board filter (absent, [null]
    or the empty string) the answer is that of the request.  With a filter
    and an array of cards none of which is [null], the answer is the array of
    the cards that refer to the board by [board.id] or by [board_id], in the
    order the service sent them. *)
Theorem list_cards_filters_locally client (args v : JS.Value) w :
  validateToolArgs args [("board_id", "string?")] "fizzy_list_cards" = Return v ->
  snd (callTool client "fizzy_list_cards" args w)
  = snd (request client "/cards" no_options w)
  /\ (JS.truthy (optional (the_optional args "board_id")) = false ->
      callTool client "fizzy_list_cards" args w = relay client "/cards" no_options w)
  /\ (forall b cards,
        the_optional args "board_id" = Some b ->
        b <> EmptyString ->
        fst (request client "/cards" no_options w) = Return (JS.Array cards) ->
        (forall c, In c cards -> JS.is_nullish c = false) ->
        fst (callTool client "fizzy_list_cards" args w)
        = answer (Return (JS.Array (filter (card_on_board b) cards)))).
Proof.
  intros Hv. destruct (validated_view _ _ _ Hv) as [_ Ho].
  specialize (Ho "board_id" (or_introl eq_refl)).
  assert (Run : tool_result client "fizzy_list_cards" args w
                = listCards client (the_optional args "board_id") w).
  { enter_validated Hv. now rewrite Ho. }
  rewrite callTool_answer, Run. unfold listCards, bind.
  split; [|split].
  - destruct (request client "/cards" no_options w) as [[cards|m] w']; simpl;
      [|reflexivity].
    destruct (JS.truthy (optional (the_optional args "board_id"))); [|reflexivity].
    destruct cards; destruct (the_optional args "board_id"); try reflexivity.
    now destruct (filter_cards s xs).
  - intros Hb. unfold relay, relay_with. rewrite Hb.
    now destruct (request client "/cards" no_options w) as [[cards|m] w'].
  - intros b cards Hb Hne Hr Hpresent. rewrite Hb.
    apply String.eqb_neq in Hne.
    change (JS.truthy (optional (Some b))) with (negb (b =? EmptyString)).
    rewrite Hne. simpl negb. cbv iota.
    destruct (request client "/cards" no_options w) as [[cs|m] w']; simpl in Hr;
      [|discriminate].
    injection Hr as ->.
    now rewrite (filter_cards_present b cards Hpresent).
Qed.

(** X13: a board filter needs an array of cards.  With a non-empty board
    filter, a response that is not an array (the empty object of an empty
    body, an [html] wrapper, [null], a string) or an array with a [null]
    element makes the tool answer with an error, after the request was sent. *)
Theorem list_cards_filter_needs_array client (args v : JS.Value) w (b : string) :
  validateToolArgs args [("board_id", "string?")] "fizzy_list_cards" = Return v ->
  the_optional args "board_id" = Some b ->
  b <> EmptyString ->
  (forall cards,
     fst (request client "/cards" no_options w) = Return cards ->
     (forall xs, cards <> JS.Array xs) ->
     isError (fst (callTool client "fizzy_list_cards" args w)) = true)
  /\ (forall cards c,
        fst (request client "/cards" no_options w) = Return (JS.Array cards) ->
        In c cards -> JS.is_nullish c = true ->
        isError (fst (callTool client "fizzy_list_cards" args w)) = true).
Proof.
  intros Hv Hb Hne. destruct (validated_view _ _ _ Hv) as [_ Ho].
  specialize (Ho "board_id" (or_introl eq_refl)).
  assert (Run : tool_result client "fizzy_list_cards" args w
                = listCards client (Some b) w).
  { enter_validated Hv. now rewrite Ho, Hb. }
  rewrite callTool_answer, Run. unfold listCards, bind.
  apply String.eqb_neq in Hne.
  change (JS.truthy (optional (Some b))) with (negb (b =? EmptyString)).
  rewrite Hne. simpl negb. cbv iota. split.
  - intros cards Hr Hnot.
    destruct (request client "/cards" no_options w) as [[cs|m] w']; simpl in Hr;
      [|discriminate].
    injection Hr as ->.
    destruct cards; try reflexivity. exfalso. now apply (Hnot xs).
  - intros cards c Hr Hin N.
    destruct (request client "/cards" no_options w) as [[cs|m] w']; simpl in Hr;
      [|discriminate].
    injection Hr as ->.
    destruct (filter_cards_nullish b cards c Hin N) as (m & ->). reflexivity.
Qed.

End Relays.

Lemma board_tools_relay_witness :
  callTool sample_client "fizzy_create_board"
    (JS.Object [("name", JS.Str "Roadmap"); ("description", JS.Null)])
    (sample_world [Return created_42])
  = relay sample_client "/boards"
      (mkOptions (Some "POST")
         (Some (sample_stringify
                  (JS.Object
                     [("board",
                       JS.Object [("name", JS.Str "Roadmap");
                                  ("description", JS.Undefined)])]))))
      (sample_world [Return created_42]).
Proof.
  exact (proj2 (proj2 (@board_tools_relay sample_runtime sample_client
                         (JS.Object [("name", JS.Str "Roadmap");
                                     ("description", JS.Null)])
                         (sample_world [Return created_42])))
           _ eq_refl).
Defined.

Lemma card_tools_relay_witness :
  callTool sample_client "fizzy_update_card"
    (JS.Object [("card_id", JS.Str "42"); ("title", JS.Str "New")])
    (sample_world [Return empty_ok])
  = relay sample_client "/cards/42"
      (mkOptions (Some "PATCH")
         (Some (sample_stringify
                  (JS.Object
                     [("card",
                       JS.Object [("title", JS.Str "New");
                                  ("description", JS.Undefined)])]))))
      (sample_world [Return empty_ok]).
Proof.
  exact (proj2 (proj2 (@card_tools_relay sample_runtime sample_client
                         (JS.Object [("card_id", JS.Str "42"); ("title", JS.Str "New")])
                         (sample_world [Return empty_ok])))
           _ eq_refl eq_refl).
Defined.

Lemma column_and_comment_tools_relay_witness :
  callTool sample_client "fizzy_list_columns"
    (JS.Object [("board_id", JS.Str "b1")]) (sample_world [Return empty_ok])
  = relay sample_client "/boards/b1/columns" no_options
      (sample_world [Return empty_ok]).
Proof.
  exact (proj1 (@column_and_comment_tools_relay sample_runtime sample_client
                  (JS.Object [("board_id", JS.Str "b1")])
                  (sample_world [Return empty_ok]))
           _ eq_refl eq_refl).
Defined.

Lemma tag_and_move_answers_witness :
  callTool sample_client "fizzy_remove_tag"
    (JS.Object [("card_id", JS.Str "12"); ("tag", JS.Str "feature")])
    (sample_world [Return not_now_fragment])
  = relay_with
      (fun _ => Return (JS.Object
         [("success", JS.Bool true);
          ("message", JS.Str "Tag 'feature' removed from card")]))
      sample_client "/cards/12/taggings"
      (mkOptions (Some "POST")
         (Some (sample_stringify (JS.Object [("tag_title", JS.Str "feature")]))))
      (sample_world [Return not_now_fragment]).
Proof.
  exact (proj1 (proj2 (@tag_and_move_answers sample_runtime sample_client
                         (JS.Object [("card_id", JS.Str "12");
                                     ("tag", JS.Str "feature")])
                         (sample_world [Return not_now_fragment])))
           _ eq_refl eq_refl).
Defined.

Lemma list_cards_filters_locally_witness :
  validateToolArgs (JS.Object [("board_id", JS.Str "b1")])
    [("board_id", "string?")] "fizzy_list_cards"
  = Return (JS.Object [("board_id", JS.Str "b1")])
  /\ fst (callTool (R := cards_runtime) sample_client "fizzy_list_cards"
            (JS.Object [("board_id", JS.Str "b1")])
            (mkWorld (R := cards_runtime) tt []))
     = answer (R := cards_runtime) (Return (JS.Array [card_nested; card_flat])).
Proof.
  split; [reflexivity|].
  refine (proj2 (proj2
    (@list_cards_filters_locally cards_runtime sample_client
       (JS.Object [("board_id", JS.Str "b1")])
       (JS.Object [("board_id", JS.Str "b1")])
       (mkWorld (R := cards_runtime) tt []) eq_refl))
    "b1" [card_nested; card_other; card_flat] eq_refl _ eq_refl _).
  - discriminate.
  - intros c [<- | [<- | [<- | []]]]; reflexivity.
Defined.

Lemma list_cards_filter_needs_array_witness :
  validateToolArgs (JS.Object [("board_id", JS.Str "b1")])
    [("board_id", "string?")] "fizzy_list_cards"
  = Return (JS.Object [("board_id", JS.Str "b1")])
  /\ isError (fst (callTool sample_client "fizzy_list_cards"
                     (JS.Object [("board_id", JS.Str "b1")])
                     (sample_world [Return empty_ok])))
     = true.
Proof.
  split; [reflexivity|].
  refine (proj1
    (@list_cards_filter_needs_array sample_runtime sample_client
       (JS.Object [("board_id", JS.Str "b1")])
       (JS.Object [("board_id", JS.Str "b1")])
       (sample_world [Return empty_ok]) "b1" eq_refl eq_refl _)
    (JS.Object []) eq_refl _).
  - discriminate.
  - intros xs. discriminate.
Defined.

(** ** The configuration of the process *)

Lemma or_default_cases (value : option string) (fallback : string) :
  (exists s, value = Some s /\ s <> EmptyString /\ or_default value fallback = s)
  \/ ((value = None \/ value = Some EmptyString) /\ or_default value fallback = fallback).
Proof.
  unfold or_default. destruct value as [s|]; simpl.
  - destruct (String.eqb_spec s EmptyString) as [->|Hne]; simpl.
    + right. split; [now right | reflexivity].
    + left. now exists s.
  - right. split; [now left | reflexivity].
Qed.

(** X14: the client of [main].  A variable that is unset or empty takes its
    default: the base URL [http://localhost:3737], the account [1], no
    token.  So the account segment of a request URL is never empty, and the
    [Authorization] header is sent exactly when [FIZZY_TOKEN] is set to a
    non-empty value, as [Bearer] followed by it. *)
Theorem main_client_defaults (env : Environment) :
  accountId (main_client env) <> EmptyString
  /\ FIZZY_URL env <> EmptyString
  /\ (env_FIZZY_URL env = None \/ env_FIZZY_URL env = Some EmptyString ->
      baseUrl (main_client env) = "http://localhost:3737")
  /\ (env_FIZZY_ACCOUNT_ID env = None \/ env_FIZZY_ACCOUNT_ID env = Some EmptyString ->
      accountId (main_client env) = "1")
  /\ (forall value,
        In ("Authorization", value) (request_headers (main_client env))
        <-> exists t, env_FIZZY_TOKEN env = Some t /\ t <> EmptyString
                      /\ value = "Bearer " ++ t).
Proof.
  unfold main_client, new_FizzyClient. simpl.
  split; [|split; [|split; [|split]]].
  - unfold FIZZY_ACCOUNT_ID.
    destruct (or_default_cases (env_FIZZY_ACCOUNT_ID env) "1")
      as [(s & _ & Hne & ->) | (_ & ->)]; [exact Hne | discriminate].
  - unfold FIZZY_URL.
    destruct (or_default_cases (env_FIZZY_URL env) "http://localhost:3737")
      as [(s & _ & Hne & ->) | (_ & ->)]; [exact Hne | discriminate].
  - intros H. unfold FIZZY_URL.
    destruct (or_default_cases (env_FIZZY_URL env) "http://localhost:3737")
      as [(s & Hs & Hne & _) | (_ & ->)]; [|reflexivity].
    destruct H as [H | H]; rewrite H in Hs; congruence.
  - intros H. unfold FIZZY_ACCOUNT_ID.
    destruct (or_default_cases (env_FIZZY_ACCOUNT_ID env) "1")
      as [(s & Hs & Hne & _) | (_ & ->)]; [|reflexivity].
    destruct H as [H | H]; rewrite H in Hs; congruence.
  - intros value. unfold request_headers, FIZZY_TOKEN. simpl token.
    destruct (or_default_cases (env_FIZZY_TOKEN env) EmptyString)
      as [(s & Hs & Hne & ->) | (Hs & ->)].
    + apply String.eqb_neq in Hne. simpl JS.truthy. rewrite Hne. simpl.
      apply String.eqb_neq in Hne. split.
      * intros [[=] | [[=] | [[= <-] | []]]]. now exists s.
      * intros (t & Ht & _ & ->). rewrite Hs in Ht. injection Ht as <-. tauto.
    + simpl. split.
      * intros [[=] | [[=] | []]].
      * intros (t & Ht & Hne & _). destruct Hs as [Hs | Hs]; rewrite Hs in Ht;
          [discriminate | congruence].
Qed.

(** The two tag tools at one card and one tag: the same request. *)
Lemma addTag_removeTag_same_call_witness :
  requests (trace (snd (callTool sample_client "fizzy_remove_tag"
                          (JS.Object [("card_id", JS.Str "12"); ("tag", JS.Str "bug")])
                          (sample_world [Return empty_ok]))))
  = [("http://localhost:3737/1/cards/12/taggings",
      mkInit (Some "POST")
        [("Accept", "application/json"); ("Content-Type", "application/json");
         ("Authorization", "Bearer secret")]
        (Some (sample_stringify (JS.Object [("tag_title", JS.Str "bug")]))))]
  /\ requests (trace (snd (callTool sample_client "fizzy_add_tag"
                             (JS.Object [("card_id", JS.Str "12"); ("tag", JS.Str "bug")])
                             (sample_world [Return empty_ok]))))
     = requests (trace (snd (callTool sample_client "fizzy_remove_tag"
                               (JS.Object [("card_id", JS.Str "12"); ("tag", JS.Str "bug")])
                               (sample_world [Return empty_ok])))).
Proof.
  pose proof (proj2 (proj2 (proj2
    (@addTag_removeTag_same_call sample_runtime sample_client "12" "bug"
       (sample_world [Return empty_ok]))))) as H.
  split.
  - exact (H "fizzy_remove_tag"
             (JS.Object [("card_id", JS.Str "12"); ("tag", JS.Str "bug")])
             _ (or_intror eq_refl) eq_refl eq_refl).
  - rewrite (H "fizzy_add_tag"
               (JS.Object [("card_id", JS.Str "12"); ("tag", JS.Str "bug")])
               _ (or_introl eq_refl) eq_refl eq_refl).
    rewrite (H "fizzy_remove_tag"
               (JS.Object [("card_id", JS.Str "12"); ("tag", JS.Str "bug")])
               _ (or_intror eq_refl) eq_refl eq_refl).
    reflexivity.
Defined.
